(** * A folder watcher: [scripts/sample-script-watch-folder.py]

    The script waits for a directory to exist, derives an identifier from
    its creation time, and runs a monitoring session (a watchdog observer
    plus a heartbeat loop) until the tracked path disappears; then it
    starts over.

    The program is embedded as state-passing functions over a [World]: an
    oracle that holds the process environment, fixed when the interpreter
    starts, and answers, tick by tick, every other question the script
    asks of its surroundings (file metadata, whether the observer can
    start, and the filesystem events the observer delivers).
    Every external call is appended to the [trace], so that what the script
    logged, polled and slept is observable.  Loops that Python runs without
    bound take a fuel argument and answer [Running], with the state they
    reached, while they have not finished. *)

From Stdlib Require Import ZArith QArith String Ascii List Bool Lia.
From Stdlib Require Import DecimalString DecimalPos DecimalZ.
Import ListNotations.
Local Open Scope string_scope.
Local Open Scope Z_scope.

(** ** Python built-ins used by the script *)

Module Py.

(** [needle in hay] on [str]. *)
Fixpoint contains (needle hay : string) : bool :=
  if String.prefix needle hay then true
  else match hay with
       | EmptyString => false
       | String _ rest => contains needle rest
       end.

(** [int(x)] on a float, the float taken as the rational it denotes:
    truncation towards zero. *)
Definition int_of_float (x : Q) : Z := Z.quot (Qnum x) (Z.pos (Qden x)).

(** [str(n)], which is also what [f"{n}"] renders for an [int]. *)
Definition str_of_int (n : Z) : string := NilEmpty.string_of_int (Z.to_int n).

(** Truthiness of a [str]: [if s:]. *)
Definition truthy (s : string) : bool :=
  match s with EmptyString => false | String _ _ => true end.

(** Exceptions the modelled calls can raise.  All but
    [KeyboardInterrupt] derive from [Exception]; [FileNotFoundError]
    derives from [OSError]; the payload of [ValueError] and of
    [OverflowError] is [str(e)]. *)
Inductive exn : Type :=
| FileNotFoundError
| OSError
| ValueError (msg : string)
| OverflowError (msg : string)
| KeyboardInterrupt.

Definition is_Exception (e : exn) : bool :=
  match e with KeyboardInterrupt => false | _ => true end.

Definition is_FileNotFoundError (e : exn) : bool :=
  match e with FileNotFoundError => true | _ => false end.

Definition str_of_exn (e : exn) : string :=
  match e with
  | FileNotFoundError => "[Errno 2] No such file or directory"
  | OSError => "[Errno 13] Permission denied"
  | ValueError msg => msg
  | OverflowError msg => msg
  | KeyboardInterrupt => ""
  end.

(** What a call yields: a value or a raised exception. *)
Inductive outcome (A : Type) : Type :=
| Returned (a : A)
| Raised (e : exn).
Arguments Returned {A} a.
Arguments Raised {A} e.

(** *** [time.sleep(secs)] on an [int]

    The length is turned into nanoseconds in a signed 64-bit integer,
    which holds up to 9223372036 whole seconds either way; only then is
    its sign looked at. *)

Definition SLEEP_MAX : Z := 9223372036.

(** What [time.sleep(secs)] raises instead of sleeping, if anything. *)
Definition sleep_refusal (secs : Z) : option exn :=
  if ((secs <? - SLEEP_MAX) || (SLEEP_MAX <? secs))%bool
  then Some (OverflowError "timestamp too large to convert to C _PyTime_t")
  else if secs <? 0 then Some (ValueError "sleep length must be non-negative")
  else None.

(** *** [int(s)] on a [str], base 10

    CPython's reading of a literal, for strings whose characters are all
    below 256 (Latin-1), with the default limit of 4300 digits. *)

(** Characters [int] strips on both sides: tab to carriage return, the
    space, and the two spaces above 127, NEL and the no-break space. *)
Definition is_space (c : ascii) : bool :=
  let n := nat_of_ascii c in
  (((9 <=? n) && (n <=? 13)) || (n =? 32) || (n =? 133) || (n =? 160))%nat.

Definition digit_of (c : ascii) : option Z :=
  let n := nat_of_ascii c in
  if ((48 <=? n) && (n <=? 57))%nat then Some (Z.of_nat (n - 48)) else None.

Fixpoint lstrip (s : string) : string :=
  match s with
  | String c rest => if is_space c then lstrip rest else s
  | EmptyString => s
  end.

Fixpoint rstrip (s : string) : string :=
  match s with
  | EmptyString => EmptyString
  | String c rest =>
      match rstrip rest with
      | EmptyString => if is_space c then EmptyString else String c EmptyString
      | rest' => String c rest'
      end
  end.

(** Digits, with single underscores allowed between two digits.
    [acc] is the value read so far, [after_digit] tells whether the
    previous character was a digit. *)
Fixpoint digits (s : string) (acc : Z) (after_digit : bool) : option Z :=
  match s with
  | EmptyString => if after_digit then Some acc else None
  | String c rest =>
      match digit_of c with
      | Some d => digits rest (10 * acc + d) true
      | None =>
          if (Ascii.eqb c "_" && after_digit)%bool then digits rest acc false
          else None
      end
  end.

Fixpoint count_digits (s : string) : nat :=
  match s with
  | EmptyString => O
  | String c rest =>
      match digit_of c with
      | Some _ => S (count_digits rest)
      | None => count_digits rest
      end
  end.

Definition MAX_STR_DIGITS : nat := 4300.

Definition parse_int (s : string) : option Z :=
  let body := rstrip (lstrip s) in
  if (MAX_STR_DIGITS <? count_digits body)%nat then None
  else match body with
       | String "-" rest => option_map Z.opp (digits rest 0 false)
       | String "+" rest => digits rest 0 false
       | _ => digits body 0 false
       end.

End Py.
Export Py.

(** ** Library functions the script calls but does not define

    [os.path.abspath], [os.path.basename], [termcolor.colored] and [int]
    on a [str] are kept abstract; the theorems hold for any
    implementation.  [int_literal s] is what [int(s)] returns, [None]
    when it raises its [ValueError], whose text is then [int_error s].
    An instance is given further down for running the model. *)

Class Libs : Type := {
  abspath : string -> string;
  basename : string -> string;
  colored : string -> string -> string;
  int_literal : string -> option Z;
  int_error : string -> string
}.

(** ** Logging *)

Inductive Level : Type := INFO | WARNING | CRITICAL.

Definition getLevelName (l : Level) : string :=
  match l with
  | INFO => "INFO"
  | WARNING => "WARNING"
  | CRITICAL => "CRITICAL"
  end.

(** ** The surroundings *)

(** What [os.stat] answers for a path. *)
Inductive stat_reply : Type :=
| stat_ok (st_ctime : Q)
| stat_missing        (* ENOENT: FileNotFoundError *)
| stat_denied.        (* any other OSError *)

Inductive EventType : Type := created | deleted | modified | moved.

Record FileSystemEvent : Type := {
  event_type : EventType;
  src_path : string;
  dest_path : string
}.

Record Snapshot : Type := {
  stat : string -> stat_reply;
  get_ident : Z;                         (* [threading.get_ident()] *)
  watch_fails : string -> bool;          (* the observer cannot watch the path *)
  delivered : list FileSystemEvent       (* events the observer thread dispatches now *)
}.

(** [os_environ] is [os.environ]: filled once when the interpreter
    starts and written nowhere in the script, so it is the same at every
    tick.  Everything else may change from one tick to the next; [w t] is
    the snapshot at tick [t]. *)
Record World : Type := {
  os_environ : string -> option string;
  snapshot_at :> nat -> Snapshot
}.

(** Whether a stat of [path] succeeds. *)
Definition present (snap : Snapshot) (path : string) : bool :=
  match stat snap path with
  | stat_ok _ => true
  | _ => false
  end.

(** External calls, in the order the script makes them; a query is
    recorded with its answer. *)
Inductive Call : Type :=
| os_path_exists (path : string) (answer : bool)
| os_stat (path : string)
| os_getenv (key : string) (answer : option string)
| time_sleep (secs : Z)
| logging_log (level : Level) (text : string)
| observer_schedule (path : string)
| observer_start
| observer_stop
| observer_join.

Record State : Type := {
  clock : nat;
  trace : list Call
}.

Definition record (c : Call) (st : State) : State :=
  {| clock := clock st; trace := trace st ++ [c] |}.

Definition tick (st : State) : State :=
  {| clock := S (clock st); trace := trace st |}.

(** The cells of [monitor_folder] that the nested handler closes over:
    the [nonlocal folder_path] and the observer's stop flag. *)
Record Session : Type := {
  folder_path : string;
  observer_stopped : bool
}.

Definition DEFAULT_PERIODICITY : Z := 5.

(** How far a computation with a loop got on the fuel it was given:
    still inside the loop, or finished with an outcome. *)
Inductive progress (S A : Type) : Type :=
| Running (s : S)
| Done (r : outcome A) (s : S).
Arguments Running {S A} s.
Arguments Done {S A} r s.

(** How one turn of the session's loop ends. *)
Inductive turn : Type :=
| Again (ss : Session) (st : State)
| Leave (r : outcome unit) (ss : Session) (st : State).

(** ** The script *)

Section Script.

Context {L : Libs}.
Variable w : World.

(** *** Primitive calls *)

(** [os.stat(path)]. *)
Definition do_stat (path : string) (st : State) : outcome Q * State :=
  let st' := tick (record (os_stat path) st) in
  match stat (w (clock st)) path with
  | stat_ok t => (Returned t, st')
  | stat_missing => (Raised FileNotFoundError, st')
  | stat_denied => (Raised OSError, st')
  end.

(** [os.path.exists(path)]: a stat whose [OSError] is turned into [False]. *)
Definition exists_ (path : string) (st : State) : bool * State :=
  let answer := present (w (clock st)) path in
  (answer, tick (record (os_path_exists path answer) st)).

(** [os.getenv(key)], [None] when the variable is unset. *)
Definition getenv (key : string) (st : State) : option string * State :=
  let value := os_environ w key in
  (value, tick (record (os_getenv key value) st)).

(** [time.sleep(secs)]. *)
Definition sleep (secs : Z) (st : State) : outcome unit * State :=
  match sleep_refusal secs with
  | Some e => (Raised e, st)
  | None => (Returned tt, tick (record (time_sleep secs) st))
  end.

(** [int(s)] on a [str]. *)
Definition int_of_str (s : string) : outcome Z :=
  match int_literal s with
  | Some n => Returned n
  | None => Raised (ValueError (int_error s))
  end.

(** [int(os.getenv('PERIODICITY', DEFAULT_PERIODICITY))], given what
    [os.getenv('PERIODICITY')] found. *)
Definition period_of (value : option string) : outcome Z :=
  match value with
  | Some s => int_of_str s
  | None => Returned DEFAULT_PERIODICITY
  end.

(** Modelled from the spec: [observer.stop()] is watchdog's, which the
    repository does not contain.  The spec has it idempotent and never
    failing; here it sets the observer's stop flag, which is what ends
    the dispatching of events, and is recorded in the trace. *)
Definition stop (ss : Session) (st : State) : Session * State :=
  ({| folder_path := folder_path ss; observer_stopped := true |},
   record observer_stop st).

(** *** [log_message] *)

Definition log_text (level : Level) (message : string) (color : option string) : string :=
  let level_name := getLevelName level in
  let level_name :=
    match color with
    | Some c => if truthy c then colored level_name c else level_name
    | None => level_name
    end in
  "[" ++ level_name ++ "] " ++ message.

Definition log_message (level : Level) (message : string) (color : option string)
    (st : State) : State :=
  record (logging_log level (log_text level message color)) st.

(** *** [get_folder_id] *)

Definition get_folder_id (path : string) (st : State) : outcome string * State :=
  match do_stat path st with
  | (Returned st_ctime, st') => (Returned (str_of_int (int_of_float st_ctime)), st')
  | (Raised e, st') =>
      if is_FileNotFoundError e then (Returned EmptyString, st') else (Raised e, st')
  end.

(** *** [FolderEventHandler] *)

Definition on_created (event : FileSystemEvent) (st : State) : State :=
  if contains "content-banned" (basename (src_path event))
  then log_message INFO ("File created: " ++ src_path event) (Some "green") st
  else st.

Definition on_deleted (event : FileSystemEvent) (st : State) : State :=
  if contains "content-banned" (basename (src_path event))
  then log_message INFO ("File deleted: " ++ src_path event) (Some "green") st
  else st.

Definition on_moved (event : FileSystemEvent) (ss : Session) (st : State)
    : Session * State :=
  if String.eqb (abspath (folder_path ss)) (abspath (src_path event))
  then
    let st := log_message WARNING
                ("Folder renamed from " ++ src_path event ++ " to " ++ dest_path event)
                (Some "yellow") st in
    let ss := {| folder_path := dest_path event;
                 observer_stopped := observer_stopped ss |} in
    stop ss st
  else (ss, st).

(** [FileSystemEventHandler.dispatch]: the method named after the event
    type; [on_modified] is the base class's, which does nothing. *)
Definition dispatch (event : FileSystemEvent) (ss : Session) (st : State)
    : Session * State :=
  match event_type event with
  | created => (ss, on_created event st)
  | deleted => (ss, on_deleted event st)
  | moved => on_moved event ss st
  | modified => (ss, st)
  end.

(** Modelled from the spec: the observer's delivery of queued events is
    watchdog's, which the repository does not contain.  The spec has
    [stop] shut the notifications down for good; here the events of a
    batch are handed over in order until the stop flag is set. *)
Fixpoint dispatch_all (events : list FileSystemEvent) (ss : Session) (st : State)
    : Session * State :=
  match events with
  | [] => (ss, st)
  | event :: rest =>
      if observer_stopped ss then (ss, st)
      else let '(ss', st') := dispatch event ss st in dispatch_all rest ss' st'
  end.

(** Modelled from the spec: the callbacks run on watchdog's thread,
    concurrently with the heartbeat loop.  Here the events of the current
    tick reach the handler before the session thread makes its next
    call. *)
Definition deliver (ss : Session) (st : State) : Session * State :=
  dispatch_all (delivered (w (clock st))) ss st.

(** *** [monitor_folder] *)

Definition heartbeat_message (path folder_id : string) : string :=
  "Monitoring folder " ++ path ++ " (ID: " ++ folder_id ++ ")".

Definition error_message (path : string) (e : exn) : string :=
  "Error monitoring folder " ++ path ++ ": " ++ str_of_exn e.

Definition terminated_message (path folder_id : string) : string :=
  "Folder " ++ path ++ " (ID: " ++ folder_id ++ ") monitoring terminated.".

(** One turn of [while os.path.exists(folder_path)]: the test and, when
    it holds, the body.  [Again] goes back to the test, [Leave] ends the
    loop, by a false test or by an exception. *)
Definition heartbeat_turn (folder_id : string) (ss : Session) (st : State) : turn :=
  let '(ss, st) := deliver ss st in
  let '(there, st) := exists_ (folder_path ss) st in
  if there then
    let st := log_message INFO (heartbeat_message (folder_path ss) folder_id)
                (Some "green") st in
    let '(ss, st) := deliver ss st in
    let '(value, st) := getenv "PERIODICITY" st in
    match period_of value with
    | Raised e => Leave (Raised e) ss st
    | Returned secs =>
        let '(ss, st) := deliver ss st in
        match sleep secs st with
        | (Raised e, st) => Leave (Raised e) ss st
        | (Returned _, st) => Again ss st
        end
    end
  else Leave (Returned tt) ss st.

(** The loop. *)
Fixpoint heartbeat (fuel : nat) (folder_id : string) (ss : Session) (st : State)
    : progress (Session * State) unit :=
  match fuel with
  | O => Running (ss, st)
  | S fuel' =>
      match heartbeat_turn folder_id ss st with
      | Again ss st => heartbeat fuel' folder_id ss st
      | Leave r ss st => Done r (ss, st)
      end
  end.

(** The [finally] block. *)
Definition cleanup (folder_id : string) (ss : Session) (st : State) : State :=
  let '(ss, st) := stop ss st in
  let st := record observer_join st in
  log_message CRITICAL (terminated_message (folder_path ss) folder_id) (Some "red") st.

(** The [try] statement around the loop. *)
Definition guarded_heartbeat (fuel : nat) (folder_id : string) (ss : Session) (st : State)
    : progress State unit :=
  match heartbeat fuel folder_id ss st with
  | Running (_, st) => Running st
  | Done (Returned _) (ss, st) => Done (Returned tt) (cleanup folder_id ss st)
  | Done (Raised e) (ss, st) =>
      if is_Exception e then
        let st := log_message CRITICAL (error_message (folder_path ss) e) (Some "red") st in
        Done (Returned tt) (cleanup folder_id ss st)
      else Done (Raised e) (cleanup folder_id ss st)
  end.

Definition monitor_folder (fuel : nat) (path folder_id : string) (st : State)
    : progress State unit :=
  let st := record (observer_schedule path) st in
  let failed := watch_fails (w (clock st)) path in
  let st := tick (record observer_start st) in
  if failed then Done (Raised OSError) st
  else guarded_heartbeat fuel folder_id
         {| folder_path := path; observer_stopped := false |} st.

(** *** [wait_for_folder] *)

Definition waiting_message (path : string) : string :=
  "Waiting for folder " ++ path ++ " to be created...".

Fixpoint wait_loop (fuel : nat) (path : string) (st : State) : progress State unit :=
  match fuel with
  | O => Running st
  | S fuel' =>
      let '(present, st) := exists_ path st in
      if present then Done (Returned tt) st
      else match sleep 1 st with
           | (Raised e, st) => Done (Raised e) st
           | (Returned _, st) => wait_loop fuel' path st
           end
  end.

Definition wait_for_folder (fuel : nat) (path : string) (st : State)
    : progress State unit :=
  wait_loop fuel path (log_message INFO (waiting_message path) (Some "green") st).

(** *** [main] *)

Definition created_message (path folder_id : string) (ident : Z) : string :=
  "Folder " ++ path ++ " of ID " ++ folder_id
  ++ " is created with Thread ID " ++ str_of_int ident.

Definition failed_message (path : string) : string :=
  "Failed to get folder ID for " ++ path ++ ".".

(** One turn of [while True].  The session runs on a thread of its own
    that [main] joins at once; an exception that ends that thread is
    reported by [threading] and does not reach [main]. *)
Definition main_iteration (fuel : nat) (path : string) (st : State)
    : progress State unit :=
  match wait_for_folder fuel path st with
  | Running st => Running st
  | Done (Raised e) st => Done (Raised e) st
  | Done (Returned _) st =>
      match get_folder_id path st with
      | (Raised e, st) => Done (Raised e) st
      | (Returned folder_id, st) =>
          if truthy folder_id then
            let st := log_message INFO
                        (created_message path folder_id (get_ident (w (clock st))))
                        (Some "green") st in
            match monitor_folder fuel path folder_id st with
            | Running st => Running st
            | Done _ st => Done (Returned tt) st
            end
          else
            Done (Returned tt)
              (log_message CRITICAL (failed_message path) (Some "red") st)
      end
  end.

(** [turns] turns of the loop, each of its inner loops given [fuel].
    [Done (Returned tt)] stands for: all [turns] were completed and the
    loop goes on; [Running] for: an inner loop is still going. *)
Fixpoint main_loop (turns fuel : nat) (path : string) (st : State)
    : progress State unit :=
  match turns with
  | O => Done (Returned tt) st
  | S turns' =>
      match main_iteration fuel path st with
      | Running st => Running st
      | Done (Raised e) st => Done (Raised e) st
      | Done (Returned _) st => main_loop turns' fuel path st
      end
  end.

Definition main (turns fuel : nat) (st : State) : progress State unit :=
  let '(value, st) := getenv "MONITORED_FOLDER" st in
  let path := match value with Some p => p | None => "./watched_folder" end in
  main_loop turns fuel path st.

End Script.

(** ** An instance of the library functions

    [posixpath.basename], [posixpath.abspath] for a process whose working
    directory is [cwd], [termcolor.colored] with colours enabled, and
    CPython's [int] on a [str] with the text of its [ValueError]. *)

Module Posix.

Definition starts_with (prefix s : string) : bool := String.prefix prefix s.

Fixpoint split_slash (s cur : string) : list string :=
  match s with
  | EmptyString => [cur]
  | String c rest =>
      if Ascii.eqb c "/" then cur :: split_slash rest EmptyString
      else split_slash rest (cur ++ String c EmptyString)
  end.

Fixpoint after_last_slash (s cur : string) : string :=
  match s with
  | EmptyString => cur
  | String c rest =>
      if Ascii.eqb c "/" then after_last_slash rest EmptyString
      else after_last_slash rest (cur ++ String c EmptyString)
  end.

(** [p[p.rfind('/') + 1:]] *)
Definition basename (p : string) : string := after_last_slash p EmptyString.

Definition initial_slashes (path : string) : nat :=
  if starts_with "/" path then
    if (starts_with "//" path && negb (starts_with "///" path))%bool then 2%nat else 1%nat
  else 0%nat.

(** One turn of the loop over the components; [new_comps] is kept with
    its last element first. *)
Definition norm_step (rooted : bool) (new_comps : list string) (comp : string)
    : list string :=
  if (String.eqb comp "" || String.eqb comp ".")%bool then new_comps
  else if (negb (String.eqb comp "..")
           || (negb rooted && match new_comps with [] => true | _ => false end)
           || match new_comps with last :: _ => String.eqb last ".." | [] => false end)%bool
       then comp :: new_comps
       else match new_comps with [] => [] | _ :: rest => rest end.

Definition normpath (path : string) : string :=
  match path with
  | EmptyString => "."
  | _ =>
      let n := initial_slashes path in
      let new_comps := fold_left (norm_step (negb (Nat.eqb n 0))) (split_slash path "") [] in
      let path := String.concat "/" (rev new_comps) in
      let path := String.concat "" (repeat "/" n) ++ path in
      match path with EmptyString => "." | _ => path end
  end.

Fixpoint ends_with_slash (s : string) : bool :=
  match s with
  | EmptyString => false
  | String c EmptyString => Ascii.eqb c "/"
  | String _ rest => ends_with_slash rest
  end.

Definition join (a b : string) : string :=
  if starts_with "/" b then b
  else if (String.eqb a "" || ends_with_slash a)%bool then a ++ b
  else a ++ "/" ++ b.

Definition abspath (cwd path : string) : string :=
  normpath (if starts_with "/" path then path else join cwd path).

Definition esc : string := String (ascii_of_nat 27) EmptyString.

Definition color_code (color : string) : string :=
  if String.eqb color "red" then "31"
  else if String.eqb color "green" then "32"
  else if String.eqb color "yellow" then "33"
  else "0".

Definition colored (text color : string) : string :=
  esc ++ "[" ++ color_code color ++ "m" ++ text ++ esc ++ "[0m".

(** *** [repr] of a [str] whose characters are all below 256 *)

Definition hex_digit (n : nat) : ascii :=
  ascii_of_nat (if (n <? 10)%nat then 48 + n else 87 + n).

Definition printable (c : ascii) : bool :=
  let n := nat_of_ascii c in
  (((32 <=? n) && (n <? 127)) || ((161 <=? n) && negb (n =? 173)))%nat.

Definition backslash : ascii := ascii_of_nat 92.

Definition escape (quote c : ascii) : string :=
  let n := nat_of_ascii c in
  if (Ascii.eqb c quote || Ascii.eqb c backslash)%bool
  then String backslash (String c EmptyString)
  else if (n =? 9)%nat then String backslash "t"
  else if (n =? 10)%nat then String backslash "n"
  else if (n =? 13)%nat then String backslash "r"
  else if printable c then String c EmptyString
  else String backslash
         (String "x" (String (hex_digit (n / 16))
                        (String (hex_digit (n mod 16)) EmptyString))).

Fixpoint escape_all (quote : ascii) (s : string) : string :=
  match s with
  | EmptyString => EmptyString
  | String c rest => escape quote c ++ escape_all quote rest
  end.

Definition repr (s : string) : string :=
  let quote : ascii :=
    if (contains "'" s && negb (contains (String "034"%char "") s))%bool
    then "034"%char else "'"%char in
  String quote (escape_all quote s) ++ String quote "".

(** *** The text of the [ValueError] of [int] *)

(** The digits of the run of digits and underscores [s] begins with;
    [None] when two underscores follow each other. *)
Fixpoint scan_digits (s : string) (after_underscore : bool) (count : nat) : option nat :=
  match s with
  | EmptyString => Some count
  | String c rest =>
      match digit_of c with
      | Some _ => scan_digits rest false (S count)
      | None =>
          if Ascii.eqb c "_" then
            if after_underscore then None else scan_digits rest true count
          else Some count
      end
  end.

Definition unsigned (body : string) : string :=
  match body with
  | String "-" rest => rest
  | String "+" rest => rest
  | _ => body
  end.

Definition int_error (s : string) : string :=
  match scan_digits (unsigned (rstrip (lstrip s))) false 0 with
  | Some n =>
      if (MAX_STR_DIGITS <? n)%nat then
        "Exceeds the limit (4300 digits) for integer string conversion: value has "
        ++ str_of_int (Z.of_nat n)
        ++ " digits; use sys.set_int_max_str_digits() to increase the limit"
      else "invalid literal for int() with base 10: " ++ repr s
  | None => "invalid literal for int() with base 10: " ++ repr s
  end.

Definition libs (cwd : string) : Libs :=
  Build_Libs (abspath cwd) basename colored parse_int int_error.

End Posix.

(** ** Reading traces *)

(** The state a computation has reached. *)
Definition reached {S A : Type} (p : progress S A) : S :=
  match p with
  | Running s => s
  | Done _ s => s
  end.

Definition after (t : turn) : Session * State :=
  match t with
  | Again ss st => (ss, st)
  | Leave _ ss st => (ss, st)
  end.

(** The observer's stop flag as a number. *)
Definition flag (ss : Session) : nat := if observer_stopped ss then 1 else 0.

(** What a session's own thread asks of its surroundings: the polls, the
    reads of the environment and the sleeps. *)
Definition is_session_call (c : Call) : bool :=
  match c with
  | os_path_exists _ _ | os_getenv _ _ | time_sleep _ => true
  | _ => false
  end.

Definition session_calls (calls : list Call) : list Call :=
  filter is_session_call calls.

Definition is_critical (c : Call) : bool :=
  match c with logging_log CRITICAL _ => true | _ => false end.

(** Nothing in [calls] was logged at CRITICAL level. *)
Definition calm (calls : list Call) : Prop :=
  Forall (fun c => is_critical c = false) calls.

Definition is_stop (c : Call) : bool :=
  match c with observer_stop => true | _ => false end.

Definition Call_eq_dec (a b : Call) : {a = b} + {a <> b}.
Proof.
  decide equality;
    try apply string_dec; try apply Z.eq_dec; try apply Bool.bool_dec;
    decide equality; apply string_dec.
Defined.

(** How many times the call [c] occurs in [calls]. *)
Definition occurrences (c : Call) (calls : list Call) : nat :=
  count_occ Call_eq_dec calls c.

(** The cells of a session that begins to watch [path], and the state
    once its observer has been started. *)
Definition fresh (path : string) : Session :=
  {| folder_path := path; observer_stopped := false |}.

Definition started (path : string) (st : State) : State :=
  tick (record observer_start (record (observer_schedule path) st)).

(** How many times [observer.stop()] was called. *)
Definition stops (calls : list Call) : nat := length (filter is_stop calls).

Section Entries.

Context {L : Libs}.

(** The call [log_message level message color] leaves in the trace. *)
Definition entry (level : Level) (message color : string) : Call :=
  logging_log level (log_text level message (Some color)).

(** What the handler leaves in the trace. *)
Inductive handler_entry : Call -> Prop :=
| handler_created (src : string) :
    handler_entry (entry INFO ("File created: " ++ src) "green")
| handler_deleted (src : string) :
    handler_entry (entry INFO ("File deleted: " ++ src) "green")
| handler_renamed (src dest : string) :
    handler_entry (entry WARNING ("Folder renamed from " ++ src ++ " to " ++ dest) "yellow")
| handler_stop :
    handler_entry observer_stop.

(** The calls of a heartbeat loop, turn by turn: each turn polls the
    tracked path, reads PERIODICITY from the process environment and
    sleeps for what it has read.  The last turn may be cut short: the
    loop is still going, the path is gone, [int] rejects the value, or
    [time.sleep] refuses it. *)
Inductive beats (w : World) : list Call -> Prop :=
| beats_going :
    beats w []
| beats_gone (path : string) :
    beats w [os_path_exists path false]
| beats_unreadable (path : string) (e : exn) :
    period_of (os_environ w "PERIODICITY") = Raised e ->
    beats w [os_path_exists path true;
             os_getenv "PERIODICITY" (os_environ w "PERIODICITY")]
| beats_refused (path : string) (secs : Z) (e : exn) :
    period_of (os_environ w "PERIODICITY") = Returned secs ->
    sleep_refusal secs = Some e ->
    beats w [os_path_exists path true;
             os_getenv "PERIODICITY" (os_environ w "PERIODICITY")]
| beats_turn (path : string) (secs : Z) (rest : list Call) :
    period_of (os_environ w "PERIODICITY") = Returned secs ->
    sleep_refusal secs = None ->
    beats w rest ->
    beats w (os_path_exists path true
             :: os_getenv "PERIODICITY" (os_environ w "PERIODICITY")
             :: time_sleep secs :: rest).

End Entries.

(** The lengths slept, in order. *)
Fixpoint sleeps (calls : list Call) : list Z :=
  match calls with
  | [] => []
  | time_sleep secs :: rest => secs :: sleeps rest
  | _ :: rest => sleeps rest
  end.

(** How many times the variable [key] was read. *)
Fixpoint reads (key : string) (calls : list Call) : nat :=
  match calls with
  | [] => O
  | os_getenv k _ :: rest => if String.eqb k key then S (reads key rest) else reads key rest
  | _ :: rest => reads key rest
  end.

(** How many polls found the path they asked about. *)
Fixpoint found (calls : list Call) : nat :=
  match calls with
  | [] => O
  | os_path_exists _ true :: rest => S (found rest)
  | _ :: rest => found rest
  end.

(** [n] unsuccessful polls of [path], a second apart. *)
Fixpoint polls (path : string) (n : nat) : list Call :=
  match n with
  | O => []
  | S n' => os_path_exists path false :: time_sleep 1 :: polls path n'
  end.

(** ** Scenarios

    Concrete surroundings on which the model is run. *)

Module Scenario.

Definition libs : Libs := Posix.libs "/srv".

Definition st0 : State := {| clock := 0; trace := [] |}.

Definition at_tick (t : nat) : State := {| clock := t; trace := [] |}.

Definition snapshot (files : string -> stat_reply) (events : list FileSystemEvent)
    : Snapshot :=
  {| stat := files; get_ident := 140;
     watch_fails := fun _ => false; delivered := events |}.

Definition world (env : string -> option string) (ticks : nat -> Snapshot) : World :=
  {| os_environ := env; snapshot_at := ticks |}.

(** A filesystem holding [path] alone, created at 1700000000.5. *)
Definition only (path : string) : string -> stat_reply :=
  fun p => if String.eqb p path then stat_ok (17000000005 # 10) else stat_missing.

Definition nothing : string -> stat_reply := fun _ => stat_missing.

Definition unset : string -> option string := fun _ => None.

Definition periodicity (value : string) : string -> option string :=
  fun key => if String.eqb key "PERIODICITY" then Some value else None.

Definition watched : Session :=
  {| folder_path := "/srv/w"; observer_stopped := false |}.

Definition banned_created : FileSystemEvent :=
  {| event_type := created;
     src_path := "/srv/w/content-banned-report.txt";
     dest_path := "" |}.

Definition plain_created : FileSystemEvent :=
  {| event_type := created; src_path := "/srv/w/report.txt"; dest_path := "" |}.

Definition renamed : FileSystemEvent :=
  {| event_type := moved; src_path := "w"; dest_path := "/srv/w2" |}.

Definition quiet : World := world unset (fun _ => snapshot (only "/srv/w") []).

(** The same folder, created four tenths of a second later. *)
Definition quiet_later : World :=
  world unset (fun _ => snapshot (fun _ => stat_ok (17000000009 # 10)) []).

(** The folder is there for the first call and gone from the second on. *)
Definition racy : World :=
  world unset (fun t =>
    match t with
    | O => snapshot (only "/srv/w") []
    | _ => snapshot nothing []
    end).

(** The folder appears at the third poll (ticks 0, 2, 4). *)
Definition late : World :=
  world unset (fun t =>
    if (t <? 4)%nat then snapshot nothing [] else snapshot (only "/srv/w") []).

Definition never : World := world unset (fun _ => snapshot nothing []).

(** The folder is there and PERIODICITY is set to something that is no
    number. *)
Definition garbled : World :=
  world (periodicity "abc") (fun _ => snapshot (only "/srv/w") []).

(** [main] started at tick 0 finds /srv/w, stats it at tick 1 and starts
    the observer at tick 2; the session polls at ticks 3, 6 and 9.  The
    folder is renamed to /srv/w2 during the first sleep (tick 5) and w2 is
    removed before the third poll; /srv/w is back from tick 13 on. *)
Definition renaming : World :=
  world unset (fun t =>
    match t with
    | 5%nat => snapshot (only "/srv/w2") [renamed]
    | 6%nat | 7%nat | 8%nat => snapshot (only "/srv/w2") []
    | 9%nat | 10%nat | 11%nat | 12%nat => snapshot nothing []
    | _ => snapshot (only "/srv/w") []
    end).

(** PERIODICITY is 7.  A session started at tick 0 polls at ticks 1, 4
    and 7 and reads the environment at ticks 2 and 5; the folder is gone
    at the third poll. *)
Definition brief : World :=
  world (periodicity "7") (fun t =>
    if (t <? 7)%nat then snapshot (only "/srv/w") [] else snapshot nothing []).

(** The folder passes the existence check and then refuses the stat. *)
Definition forbidden : World :=
  world unset (fun t =>
    match t with
    | O => snapshot (only "/srv/w") []
    | _ => snapshot (fun _ => stat_denied) []
    end).

(** The folder is there but the observer cannot watch it. *)
Definition unwatchable : World :=
  world unset (fun _ =>
    {| stat := only "/srv/w"; get_ident := 140;
       watch_fails := fun _ => true; delivered := [] |}).

(** PERIODICITY holds a negative number. *)
Definition negative : World :=
  world (periodicity "-3") (fun _ => snapshot (only "/srv/w") []).

(** PERIODICITY holds more seconds than [time.sleep] can take. *)
Definition endless : World :=
  world (periodicity "10000000000") (fun _ => snapshot (only "/srv/w") []).

(** The session of a folder that has been renamed to /srv/w2. *)
Definition moved_on : Session :=
  {| folder_path := "/srv/w2"; observer_stopped := true |}.

(** /srv/w2 stays, and events keep coming. *)
Definition busy : World :=
  world unset (fun _ => snapshot (only "/srv/w2") [banned_created; renamed]).

End Scenario.

(** * Properties *)

(** ** Strings *)

Lemma prefix_append (s t : string) : String.prefix s (s ++ t) = true.
Proof.
  induction s as [|c s IH]; simpl.
  - destruct t; reflexivity.
  - destruct (ascii_dec c c) as [_|ne]; [exact IH | contradiction].
Qed.

Lemma contains_prefix (needle hay : string) :
  String.prefix needle hay = true -> contains needle hay = true.
Proof. intros H. destruct hay; simpl in *; rewrite H; reflexivity. Qed.

Lemma contains_tail (needle : string) (c : ascii) (hay : string) :
  contains needle hay = true -> contains needle (String c hay) = true.
Proof.
  intros H. cbn [contains].
  destruct (String.prefix needle (String c hay)); [reflexivity | exact H].
Qed.

Lemma contains_append_left (needle before hay : string) :
  contains needle hay = true -> contains needle (before ++ hay) = true.
Proof.
  intros H. induction before as [|c before IH]; simpl String.append.
  - exact H.
  - apply contains_tail, IH.
Qed.

(** A string occurs in any text built around it. *)
Lemma contains_middle (before s after : string) :
  contains s (before ++ s ++ after) = true.
Proof. apply contains_append_left, contains_prefix, prefix_append. Qed.

Lemma append_inv_head (a b c : string) : a ++ b = a ++ c -> b = c.
Proof.
  induction a as [|x a IH]; simpl; intros H.
  - exact H.
  - injection H as H. exact (IH H).
Qed.

Lemma append_assoc (a b c : string) : (a ++ b) ++ c = a ++ (b ++ c).
Proof. induction a as [|x a IH]; simpl; [reflexivity | now rewrite IH]. Qed.

(** [str(n)] is never empty. *)
Lemma str_of_int_truthy (n : Z) : truthy (str_of_int n) = true.
Proof.
  unfold str_of_int.
  assert (nonnil : forall d, d <> Decimal.Nil ->
                   truthy (NilEmpty.string_of_uint d) = true)
    by (intros [| | | | | | | | | |]; simpl; congruence).
  destruct n as [|p|p]; simpl.
  - reflexivity.
  - apply nonnil, Unsigned.to_uint_nonnil.
  - reflexivity.
Qed.

(** ** The event handler *)

Section Handler.

Context {L : Libs}.

Lemma log_message_trace (level : Level) (message : string) (color : option string)
    (st : State) :
  trace (log_message level message color st)
  = (trace st ++ [logging_log level (log_text level message color)])%list
  /\ clock (log_message level message color st) = clock st.
Proof. split; reflexivity. Qed.

(** The message is part of the text handed to [logging]. *)
Lemma log_text_contains (level : Level) (color : option string)
    (before s after : string) :
  contains s (log_text level (before ++ s ++ after) color) = true.
Proof.
  unfold log_text.
  set (name := match color with Some c => _ | None => _ end).
  replace ("[" ++ name ++ "] " ++ before ++ s ++ after)
    with (("[" ++ name ++ "] " ++ before) ++ s ++ after).
  - apply contains_middle.
  - now rewrite !append_assoc.
Qed.

Lemma log_text_contains_last (level : Level) (color : option string)
    (before s : string) :
  contains s (log_text level (before ++ s) color) = true.
Proof.
  replace (before ++ s) with (before ++ s ++ "").
  - apply log_text_contains.
  - f_equal. induction s as [|c s IH]; simpl; [reflexivity | now rewrite IH].
Qed.

(** C6.  A create or delete event handed to the session's handler is
    logged, once and at INFO level with a text that contains the event's
    source path, when the base name of that path contains
    "content-banned"; otherwise nothing is logged.  Either way the
    session's cells and the clock are left alone. *)
Theorem content_banned_filter (event : FileSystemEvent) (ss : Session) (st : State) :
  event_type event = created \/ event_type event = deleted ->
  fst (dispatch event ss st) = ss
  /\ clock (snd (dispatch event ss st)) = clock st
  /\ (contains "content-banned" (basename (src_path event)) = true ->
      exists text,
        trace (snd (dispatch event ss st)) = (trace st ++ [logging_log INFO text])%list
        /\ contains (src_path event) text = true)
  /\ (contains "content-banned" (basename (src_path event)) = false ->
      snd (dispatch event ss st) = st).
Proof.
  intros kind. unfold dispatch.
  destruct kind as [-> | ->]; cbn [fst snd]; unfold on_created, on_deleted;
    destruct (contains "content-banned" (basename (src_path event)));
    (split; [reflexivity | split; [reflexivity | split; intros hit]]);
    try discriminate hit; try reflexivity;
    (eexists; split; [reflexivity | apply log_text_contains_last]).
Qed.

(** C1.  A move event whose source is the tracked path, both taken
    through [abspath], is logged once at WARNING level with a text that
    contains source and destination, rebinds the tracked path to the
    destination and stops the observer; any other move changes nothing.
    The name of the moved entry plays no part. *)
Theorem moved_rebinds_or_ignores (event : FileSystemEvent) (ss : Session) (st : State) :
  event_type event = moved ->
  (abspath (folder_path ss) = abspath (src_path event) ->
   folder_path (fst (dispatch event ss st)) = dest_path event
   /\ observer_stopped (fst (dispatch event ss st)) = true
   /\ clock (snd (dispatch event ss st)) = clock st
   /\ exists text,
        trace (snd (dispatch event ss st))
        = (trace st ++ [logging_log WARNING text; observer_stop])%list
        /\ contains (src_path event) text = true
        /\ contains (dest_path event) text = true)
  /\ (abspath (folder_path ss) <> abspath (src_path event) ->
      dispatch event ss st = (ss, st)).
Proof.
  intros kind. unfold dispatch. rewrite kind. unfold on_moved.
  destruct (String.eqb_spec (abspath (folder_path ss)) (abspath (src_path event)))
    as [same | differ]; split; intros H; try contradiction; try reflexivity.
  cbn [stop fst snd folder_path observer_stopped].
  repeat split.
  eexists. split.
  - cbn [record log_message trace]. rewrite <- app_assoc. reflexivity.
  - split.
    + apply log_text_contains.
    + replace ("Folder renamed from " ++ src_path event ++ " to " ++ dest_path event)
        with (("Folder renamed from " ++ src_path event ++ " to ") ++ dest_path event)
        by now rewrite !append_assoc.
      apply log_text_contains_last.
Qed.

End Handler.

Lemma content_banned_filter_witness :
  (event_type Scenario.banned_created = created
   \/ event_type Scenario.banned_created = deleted)
  /\ exists text,
       trace (snd (dispatch (L := Scenario.libs) Scenario.banned_created
                     Scenario.watched Scenario.st0))
       = (trace Scenario.st0 ++ [logging_log INFO text])%list
       /\ contains (src_path Scenario.banned_created) text = true.
Proof.
  split.
  - left; reflexivity.
  - apply (content_banned_filter (L := Scenario.libs) Scenario.banned_created
             Scenario.watched Scenario.st0).
    + left; reflexivity.
    + reflexivity.
Defined.

Lemma moved_rebinds_or_ignores_witness :
  event_type Scenario.renamed = moved
  /\ folder_path (fst (dispatch (L := Scenario.libs) Scenario.renamed
                         Scenario.watched Scenario.st0)) = "/srv/w2".
Proof.
  split.
  - reflexivity.
  - apply (moved_rebinds_or_ignores (L := Scenario.libs) Scenario.renamed
             Scenario.watched Scenario.st0).
    + reflexivity.
    + reflexivity.
Defined.

(** ** Identity resolution *)

Section Resolver.

Variable w : World.

(** C2, as the code has it.  [get_folder_id] stats the path once.  When
    the path is there at that moment the result is the decimal rendering
    of the creation time truncated to an integer, which is never empty;
    when it has vanished the result is the empty string, returned as an
    ordinary value. *)
Theorem get_folder_id_result (path : string) (st : State) :
  trace (snd (get_folder_id w path st)) = (trace st ++ [os_stat path])%list
  /\ (forall t, stat (w (clock st)) path = stat_ok t ->
      fst (get_folder_id w path st) = Returned (str_of_int (int_of_float t))
      /\ truthy (str_of_int (int_of_float t)) = true)
  /\ (stat (w (clock st)) path = stat_missing ->
      fst (get_folder_id w path st) = Returned EmptyString).
Proof.
  unfold get_folder_id, do_stat.
  destruct (stat (w (clock st)) path) as [t| |]; cbn [is_FileNotFoundError fst snd];
    (split; [reflexivity | split; [intros t' H | intros H]]);
    try discriminate H; try reflexivity.
  injection H as <-. split; [reflexivity | apply str_of_int_truthy].
Qed.

(** Any other failure of the stat is not absorbed. *)
Lemma get_folder_id_denied (path : string) (st : State) :
  stat (w (clock st)) path = stat_denied ->
  fst (get_folder_id w path st) = Raised OSError.
Proof. unfold get_folder_id, do_stat. now intros ->. Qed.

End Resolver.

Lemma get_folder_id_result_witness :
  stat (Scenario.quiet 0%nat) "/srv/w" = stat_ok (17000000005 # 10)
  /\ fst (get_folder_id Scenario.quiet "/srv/w" Scenario.st0) = Returned "1700000000"
  /\ truthy "1700000000" = true.
Proof.
  split.
  - reflexivity.
  - exact (proj1 (proj2 (get_folder_id_result Scenario.quiet "/srv/w" Scenario.st0))
             (17000000005 # 10) eq_refl).
Defined.

(** C2, as stated, fails: the folder passes the existence check, is gone
    when [get_folder_id] stats it, and what comes back is the string [""],
    not an error. *)
Lemma get_folder_id_vanished_counterexample :
  fst (exists_ Scenario.racy "/srv/w" Scenario.st0) = true
  /\ fst (get_folder_id Scenario.racy "/srv/w"
            (snd (exists_ Scenario.racy "/srv/w" Scenario.st0)))
     = Returned EmptyString
  /\ ~ (exists e : exn,
          fst (get_folder_id Scenario.racy "/srv/w"
                 (snd (exists_ Scenario.racy "/srv/w" Scenario.st0)))
          = Raised e).
Proof.
  split; [reflexivity | split; [reflexivity | ]].
  intros [e H]. discriminate H.
Qed.

(** ** The existence wait *)

Section Poller.

Context {L : Libs}.
Variable w : World.
Variable path : string.

Lemma sleep_one (st : State) :
  sleep 1 st = (Returned tt, tick (record (time_sleep 1) st)).
Proof. reflexivity. Qed.

Lemma wait_loop_done (fuel : nat) :
  forall (st : State) (r : outcome unit) (st' : State),
    wait_loop w fuel path st = Done r st' ->
    r = Returned tt
    /\ exists n : nat,
         (n < fuel)%nat
         /\ trace st' = (trace st ++ polls path n ++ [os_path_exists path true])%list
         /\ clock st' = (clock st + 2 * n + 1)%nat
         /\ present (w (clock st + 2 * n)%nat) path = true
         /\ (forall k, (k < n)%nat -> present (w (clock st + 2 * k)%nat) path = false).
Proof.
  induction fuel as [|fuel IH]; intros st r st' H; [discriminate H|].
  cbn [wait_loop] in H. unfold exists_ in H.
  destruct (present (w (clock st)) path) eqn:here.
  - injection H as <- <-. split; [reflexivity|]. exists 0%nat.
    cbn [polls app tick record clock trace]. rewrite !Nat.add_0_r.
    repeat split; try lia; try assumption.
  - rewrite sleep_one in H. apply IH in H. destruct H as [-> [n (lt & tr & ck & there & before)]].
    cbn [tick record clock trace] in tr, ck, there, before.
    split; [reflexivity|]. exists (S n). repeat split.
    + lia.
    + rewrite tr. cbn [polls]. rewrite <- !app_assoc. reflexivity.
    + lia.
    + replace (clock st + 2 * S n)%nat with (S (S (clock st)) + 2 * n)%nat by lia.
      exact there.
    + intros [|k] Hk.
      * rewrite Nat.add_0_r. exact here.
      * replace (clock st + 2 * S k)%nat with (S (S (clock st)) + 2 * k)%nat by lia.
        apply before. lia.
Qed.

Lemma wait_loop_running (fuel : nat) :
  forall st : State,
    (forall t, (clock st <= t)%nat -> present (w t) path = false) ->
    wait_loop w fuel path st
    = Running {| clock := (clock st + 2 * fuel)%nat;
                 trace := (trace st ++ polls path fuel)%list |}.
Proof.
  induction fuel as [|fuel IH]; intros st absent.
  - cbn [wait_loop polls]. rewrite Nat.add_0_r, app_nil_r. now destruct st.
  - cbn [wait_loop]. unfold exists_. rewrite (absent (clock st)) by lia.
    rewrite sleep_one, IH.
    + unfold tick, record. cbn [clock trace polls]. rewrite <- !app_assoc.
      do 2 f_equal. lia.
    + cbn [tick record clock]. intros t Ht. apply absent. lia.
Qed.

Lemma wait_loop_returns (n : nat) :
  forall (fuel : nat) (st : State),
    (n < fuel)%nat ->
    (forall k, (k < n)%nat -> present (w (clock st + 2 * k)%nat) path = false) ->
    present (w (clock st + 2 * n)%nat) path = true ->
    wait_loop w fuel path st
    = Done (Returned tt)
        {| clock := (clock st + 2 * n + 1)%nat;
           trace := (trace st ++ polls path n ++ [os_path_exists path true])%list |}.
Proof.
  induction n as [|n IH]; intros [|fuel] st lt before there; try lia.
  - cbn [wait_loop]. unfold exists_. rewrite Nat.add_0_r in there. rewrite there.
    unfold tick, record. cbn [clock trace polls app]. do 2 f_equal. lia.
  - assert (here : present (w (clock st)) path = false).
    { rewrite <- (Nat.add_0_r (clock st)). apply (before 0%nat). lia. }
    cbn [wait_loop]. unfold exists_. rewrite here, sleep_one, IH.
    + unfold tick, record. cbn [clock trace polls]. rewrite <- !app_assoc.
      do 2 f_equal. lia.
    + lia.
    + cbn [tick record clock]. intros k Hk.
      replace (S (S (clock st)) + 2 * k)%nat with (clock st + 2 * S k)%nat by lia.
      apply before. lia.
    + cbn [tick record clock].
      replace (S (S (clock st)) + 2 * n)%nat with (clock st + 2 * S n)%nat by lia.
      exact there.
Qed.

(** C7.  [wait_for_folder] logs that it waits and then polls the path,
    sleeping one second after each unsuccessful poll.  It never raises;
    when it returns, the poll just made found the path and every earlier
    one did not; while the path stays away it is still running whatever
    the fuel; and it returns at the first poll that finds the path. *)
Theorem wait_for_folder_blocks (fuel : nat) (st : State) :
  (forall (r : outcome unit) (st' : State),
      wait_for_folder w fuel path st = Done r st' ->
      r = Returned tt
      /\ exists n : nat,
           trace st'
           = (trace st ++ entry INFO (waiting_message path) "green"
                :: polls path n ++ [os_path_exists path true])%list
           /\ present (w (clock st + 2 * n)%nat) path = true
           /\ (forall k, (k < n)%nat -> present (w (clock st + 2 * k)%nat) path = false))
  /\ ((forall t, (clock st <= t)%nat -> present (w t) path = false) ->
      exists st' : State,
        wait_for_folder w fuel path st = Running st'
        /\ trace st'
           = (trace st ++ entry INFO (waiting_message path) "green"
                :: polls path fuel)%list)
  /\ (forall n : nat,
         (n < fuel)%nat ->
         (forall k, (k < n)%nat -> present (w (clock st + 2 * k)%nat) path = false) ->
         present (w (clock st + 2 * n)%nat) path = true ->
         exists st' : State,
           wait_for_folder w fuel path st = Done (Returned tt) st'
           /\ clock st' = (clock st + 2 * n + 1)%nat).
Proof.
  unfold wait_for_folder. repeat split.
  - apply wait_loop_done in H. tauto.
  - apply wait_loop_done in H. destruct H as [_ [n (_ & tr & _ & there & before)]].
    exists n. cbn [log_message record clock trace] in tr, there, before.
    rewrite tr, <- app_assoc. repeat split; assumption.
  - intros absent. rewrite wait_loop_running by exact absent.
    eexists. split; [reflexivity|].
    cbn [log_message record clock trace]. now rewrite <- app_assoc.
  - intros n lt before there.
    rewrite (wait_loop_returns n) by assumption.
    eexists. split; reflexivity.
Qed.

End Poller.

Lemma wait_for_folder_blocks_witness :
  (forall t, (clock Scenario.st0 <= t)%nat -> present (Scenario.never t) "/srv/w" = false)
  /\ exists st' : State,
       wait_for_folder (L := Scenario.libs) Scenario.never 3 "/srv/w" Scenario.st0
       = Running st'
       /\ trace st'
          = (trace Scenario.st0
             ++ entry (L := Scenario.libs) INFO (waiting_message "/srv/w") "green"
                :: polls "/srv/w" 3)%list.
Proof.
  assert (absent : forall t, (clock Scenario.st0 <= t)%nat ->
                   present (Scenario.never t) "/srv/w" = false)
    by (intros t _; reflexivity).
  split.
  - exact absent.
  - exact (proj1 (proj2 (wait_for_folder_blocks (L := Scenario.libs) Scenario.never
                           "/srv/w" 3 Scenario.st0)) absent).
Defined.

(** ** Traces *)

Lemma session_calls_app (a b : list Call) :
  session_calls (a ++ b) = (session_calls a ++ session_calls b)%list.
Proof. apply filter_app. Qed.

Lemma stops_app (a b : list Call) : stops (a ++ b) = (stops a + stops b)%nat.
Proof. unfold stops. now rewrite filter_app, length_app. Qed.

Lemma sleeps_app (a b : list Call) : sleeps (a ++ b) = (sleeps a ++ sleeps b)%list.
Proof.
  induction a as [|c a IH]; [reflexivity|].
  destruct c; cbn [sleeps app]; now rewrite ?IH.
Qed.

Lemma sleeps_session_calls (calls : list Call) :
  sleeps (session_calls calls) = sleeps calls.
Proof.
  induction calls as [|c calls IH]; [reflexivity|].
  destruct c; cbn [session_calls filter is_session_call sleeps]; fold (session_calls calls);
    now rewrite ?IH.
Qed.

Lemma reads_app (key : string) (a b : list Call) :
  reads key (a ++ b) = (reads key a + reads key b)%nat.
Proof.
  induction a as [|c a IH]; [reflexivity|].
  destruct c; cbn [reads app]; try exact IH.
  destruct (String.eqb key0 key); cbn; now rewrite IH.
Qed.

(** ** The session *)

(** Whatever [time.sleep] raises derives from [Exception]. *)
Lemma sleep_refusal_Exception (secs : Z) (e : exn) :
  sleep_refusal secs = Some e -> is_Exception e = true.
Proof.
  unfold sleep_refusal.
  destruct ((secs <? - SLEEP_MAX) || (SLEEP_MAX <? secs))%bool;
    [|destruct (secs <? 0)]; intros H; try discriminate H; now injection H as <-.
Qed.

Section Watching.

Context {L : Libs}.
Variable w : World.

Lemma handler_entries_silent (d : list Call) :
  Forall handler_entry d -> session_calls d = [].
Proof.
  induction 1 as [|c d Hc _ IH]; [reflexivity|].
  destruct Hc; cbn [session_calls filter is_session_call entry]; exact IH.
Qed.

Lemma handler_entries_calm (d : list Call) : Forall handler_entry d -> calm d.
Proof.
  unfold calm. apply Forall_impl. intros c Hc. now destruct Hc.
Qed.

Lemma dispatch_effect (event : FileSystemEvent) (ss : Session) (st : State) :
  exists d : list Call,
    trace (snd (dispatch event ss st)) = (trace st ++ d)%list
    /\ clock (snd (dispatch event ss st)) = clock st
    /\ Forall handler_entry d
    /\ (observer_stopped ss = false -> stops d = flag (fst (dispatch event ss st))).
Proof.
  unfold dispatch.
  destruct (event_type event); cbn [fst snd].
  - unfold on_created.
    destruct (contains "content-banned" (basename (src_path event))).
    + eexists. split; [reflexivity|]. split; [reflexivity|]. split.
      * repeat constructor.
      * unfold flag. now intros ->.
    + exists []. rewrite app_nil_r. repeat split; [constructor|].
      unfold flag. now intros ->.
  - unfold on_deleted.
    destruct (contains "content-banned" (basename (src_path event))).
    + eexists. split; [reflexivity|]. split; [reflexivity|]. split.
      * repeat constructor.
      * unfold flag. now intros ->.
    + exists []. rewrite app_nil_r. repeat split; [constructor|].
      unfold flag. now intros ->.
  - exists []. rewrite app_nil_r. repeat split; [constructor|].
    unfold flag. now intros ->.
  - unfold on_moved.
    destruct (String.eqb (abspath (folder_path ss)) (abspath (src_path event)));
      cbn [stop fst snd].
    + eexists. split; [|split; [reflexivity|split]].
      * cbn [record log_message trace]. rewrite <- app_assoc. reflexivity.
      * repeat constructor.
      * reflexivity.
    + exists []. rewrite app_nil_r. repeat split; [constructor|].
      unfold flag. now intros ->.
Qed.

Lemma dispatch_all_effect (events : list FileSystemEvent) :
  forall (ss : Session) (st : State),
  exists d : list Call,
    trace (snd (dispatch_all events ss st)) = (trace st ++ d)%list
    /\ clock (snd (dispatch_all events ss st)) = clock st
    /\ Forall handler_entry d
    /\ (stops d + flag ss = flag (fst (dispatch_all events ss st)))%nat.
Proof.
  induction events as [|event events IH]; intros ss st; cbn [dispatch_all].
  - exists []. rewrite app_nil_r. repeat split. constructor.
  - destruct (observer_stopped ss) eqn:stopped.
    + exists []. rewrite app_nil_r. repeat split. constructor.
    + destruct (dispatch_effect event ss st) as [d1 (tr1 & ck1 & h1 & s1)].
      destruct (dispatch event ss st) as [ss1 st1]. cbn [fst snd] in *.
      destruct (IH ss1 st1) as [d2 (tr2 & ck2 & h2 & s2)].
      exists (d1 ++ d2)%list. repeat split.
      * now rewrite tr2, tr1, app_assoc.
      * now rewrite ck2.
      * now apply Forall_app.
      * rewrite stops_app, (s1 stopped), <- s2.
        assert (flag ss = 0%nat) by (unfold flag; now rewrite stopped). lia.
Qed.

Lemma deliver_effect (ss : Session) (st : State) :
  exists d : list Call,
    trace (snd (deliver w ss st)) = (trace st ++ d)%list
    /\ clock (snd (deliver w ss st)) = clock st
    /\ Forall handler_entry d
    /\ (stops d + flag ss = flag (fst (deliver w ss st)))%nat.
Proof. apply dispatch_all_effect. Qed.

(** What one turn of the loop does. *)
Lemma heartbeat_turn_effect (folder_id : string) (ss : Session) (st : State) :
  exists d : list Call,
    trace (snd (after (heartbeat_turn w folder_id ss st))) = (trace st ++ d)%list
    /\ (stops d + flag ss = flag (fst (after (heartbeat_turn w folder_id ss st))))%nat
    /\ calm d
    /\ let value := os_environ w "PERIODICITY" in
       match heartbeat_turn w folder_id ss st with
       | Again _ st' =>
           exists (path : string) (secs : Z),
             session_calls d = [os_path_exists path true;
                                os_getenv "PERIODICITY" value; time_sleep secs]
             /\ period_of value = Returned secs /\ sleep_refusal secs = None
             /\ clock st' = (clock st + 3)%nat
       | Leave (Returned _) _ _ =>
           exists path : string, session_calls d = [os_path_exists path false]
       | Leave (Raised e) _ _ =>
           exists path : string,
             session_calls d = [os_path_exists path true; os_getenv "PERIODICITY" value]
             /\ is_Exception e = true
             /\ (period_of value = Raised e
                 \/ exists secs : Z,
                      period_of value = Returned secs /\ sleep_refusal secs = Some e)
       end.
Proof.
  unfold heartbeat_turn.
  destruct (deliver_effect ss st) as [d1 (tr1 & ck1 & h1 & s1)].
  destruct (deliver w ss st) as [ss1 st1]. cbn [fst snd] in tr1, ck1, s1.
  unfold exists_. rewrite ck1.
  destruct (present (w (clock st)) (folder_path ss1)).
  - set (st3 := log_message _ _ _ _).
    destruct (deliver_effect ss1 st3) as [d4 (tr4 & ck4 & h4 & s4)].
    destruct (deliver w ss1 st3) as [ss4 st4]. cbn [fst snd] in tr4, ck4, s4.
    assert (ck3 : clock st3 = S (clock st)) by (cbn; now rewrite ck1).
    assert (tr3 : trace st3
                  = (trace st ++ d1 ++ [os_path_exists (folder_path ss1) true;
                                        entry INFO (heartbeat_message (folder_path ss1) folder_id)
                                          "green"])%list)
      by (cbn; rewrite tr1, <- !app_assoc; reflexivity).
    unfold getenv.
    set (value := os_environ w "PERIODICITY").
    set (st5 := tick (record _ st4)).
    assert (tr5 : trace st5
                  = (trace st ++ (d1 ++ [os_path_exists (folder_path ss1) true;
                                         entry INFO (heartbeat_message (folder_path ss1) folder_id)
                                           "green"])
                     ++ d4 ++ [os_getenv "PERIODICITY" value])%list)
      by (cbn; rewrite tr4, tr3, <- !app_assoc; reflexivity).
    assert (calls5 : session_calls
                       ((d1 ++ [os_path_exists (folder_path ss1) true;
                                entry INFO (heartbeat_message (folder_path ss1) folder_id)
                                  "green"])
                        ++ d4 ++ [os_getenv "PERIODICITY" value])
                     = [os_path_exists (folder_path ss1) true;
                        os_getenv "PERIODICITY" value]).
    { rewrite !session_calls_app, (handler_entries_silent d1 h1),
        (handler_entries_silent d4 h4). reflexivity. }
    assert (stops5 : (stops ((d1 ++ [os_path_exists (folder_path ss1) true;
                                     entry INFO (heartbeat_message (folder_path ss1) folder_id)
                                       "green"])
                             ++ d4 ++ [os_getenv "PERIODICITY" value]) + flag ss
                      = flag ss4)%nat).
    { rewrite !stops_app. cbn [stops filter is_stop entry length]. lia. }
    assert (calm5 : calm ((d1 ++ [os_path_exists (folder_path ss1) true;
                                  entry INFO (heartbeat_message (folder_path ss1) folder_id)
                                    "green"])
                          ++ d4 ++ [os_getenv "PERIODICITY" value])).
    { unfold calm. rewrite !Forall_app.
      repeat split; try (now apply handler_entries_calm); now repeat constructor. }
    remember ((d1 ++ [os_path_exists (folder_path ss1) true;
                      entry INFO (heartbeat_message (folder_path ss1) folder_id) "green"])
              ++ d4 ++ [os_getenv "PERIODICITY" value])%list as d5 eqn:Hd5.
    clear Hd5 tr3 tr4 tr1.
    assert (ck5 : clock st5 = S (S (clock st)))
      by (subst st5; unfold tick, record; cbn [clock]; now rewrite ck4, ck3).
    destruct (period_of value) as [secs|e] eqn:period.
    + destruct (deliver_effect ss4 st5) as [d6 (tr6 & ck6 & h6 & s6)].
      destruct (deliver w ss4 st5) as [ss6 st6]. cbn [fst snd] in tr6, ck6, s6.
      unfold sleep. destruct (sleep_refusal secs) as [e|] eqn:refusal; cbn [after fst snd].
      * exists (d5 ++ d6)%list.
        split; [now rewrite tr6, tr5, <- app_assoc|].
        split; [rewrite stops_app; lia|].
        split; [apply Forall_app; split; [exact calm5 | now apply handler_entries_calm]|].
        exists (folder_path ss1).
        rewrite session_calls_app, (handler_entries_silent d6 h6), app_nil_r.
        split; [exact calls5|].
        split; [exact (sleep_refusal_Exception secs e refusal)|].
        right. now exists secs.
      * exists (d5 ++ d6 ++ [time_sleep secs])%list.
        split.
        { unfold tick, record. cbn [trace]. now rewrite tr6, tr5, <- !app_assoc. }
        split.
        { rewrite !stops_app. change (stops [time_sleep secs]) with 0%nat. lia. }
        split.
        { unfold calm. rewrite !Forall_app.
          repeat split; try (now apply handler_entries_calm); try exact calm5;
            now repeat constructor. }
        exists (folder_path ss1), secs.
        split.
        { rewrite !session_calls_app, (handler_entries_silent d6 h6), calls5.
          reflexivity. }
        split; [reflexivity|]. split; [exact refusal|].
        unfold tick, record. cbn [clock]. rewrite ck6, ck5. lia.
    + cbn [after fst snd].
      eexists. split; [exact tr5|]. split; [exact stops5|]. split; [exact calm5|].
      exists (folder_path ss1). split; [exact calls5|].
      split; [|now left].
      unfold period_of, int_of_str in period.
      destruct value as [s|]; [|discriminate period].
      destruct (int_literal s); [discriminate period|].
      now injection period as <-.
  - cbn [after fst snd].
    exists (d1 ++ [os_path_exists (folder_path ss1) false])%list.
    split; [cbn; now rewrite tr1, <- app_assoc|].
    split; [rewrite stops_app; cbn [stops filter is_stop length]; lia|].
    split.
    { apply Forall_app. split; [now apply handler_entries_calm | now repeat constructor]. }
    exists (folder_path ss1).
    now rewrite session_calls_app, (handler_entries_silent d1 h1).
Qed.

(** Every sleep lasts what PERIODICITY says in the process environment. *)
Lemma beats_sleeps (calls : list Call) :
  beats w calls ->
  Forall (fun secs => period_of (os_environ w "PERIODICITY") = Returned secs
                      /\ sleep_refusal secs = None)
    (sleeps calls).
Proof.
  intros H.
  induction H as [ | | | | path secs rest period accepted _ IH];
    cbn [sleeps]; try constructor.
  - now split.
  - exact IH.
Qed.

(** What the loop has done, whether it is still going or has ended. *)
Lemma heartbeat_effect (folder_id : string) (fuel : nat) :
  forall (ss : Session) (st : State),
  exists d : list Call,
    trace (snd (reached (heartbeat w fuel folder_id ss st))) = (trace st ++ d)%list
    /\ (stops d + flag ss = flag (fst (reached (heartbeat w fuel folder_id ss st))))%nat
    /\ calm d
    /\ beats w (session_calls d)
    /\ (forall e s, heartbeat w fuel folder_id ss st = Done (Raised e) s ->
        is_Exception e = true).
Proof.
  induction fuel as [|fuel IH]; intros ss st; cbn [heartbeat].
  - exists []. rewrite app_nil_r. cbn [reached fst snd].
    repeat split; try constructor. intros e s H; discriminate H.
  - destruct (heartbeat_turn_effect folder_id ss st) as [d1 (tr1 & s1 & c1 & shape)].
    cbv zeta in shape.
    destruct (heartbeat_turn w folder_id ss st) as [ss1 st1 | r ss1 st1];
      cbn [after fst snd] in tr1, s1.
    + destruct shape as [path [secs (calls & period & accepted & ck)]].
      destruct (IH ss1 st1) as [d2 (tr2 & s2 & c2 & b2 & exc)].
      exists (d1 ++ d2)%list. repeat split.
      * now rewrite tr2, tr1, app_assoc.
      * rewrite stops_app. lia.
      * now apply Forall_app.
      * rewrite session_calls_app, calls. cbn [app].
        apply beats_turn; [exact period | exact accepted | exact b2].
      * exact exc.
    + cbn [reached fst snd]. exists d1.
      split; [exact tr1|]. split; [exact s1|]. split; [exact c1|].
      destruct r as [u|e].
      * destruct shape as [path calls]. rewrite calls.
        split; [apply beats_gone|]. intros e s H; discriminate H.
      * destruct shape as [path (calls & exc & why)]. rewrite calls.
        split.
        -- destruct why as [bad | [secs [period refused]]].
           ++ eapply beats_unreadable. exact bad.
           ++ eapply beats_refused; [exact period | exact refused].
        -- intros e' s H. injection H as <- _. exact exc.
Qed.

End Watching.

(** ** A whole session *)

Section Sessions.

Context {L : Libs}.
Variable w : World.

Lemma cleanup_trace (folder_id : string) (ss : Session) (st : State) :
  trace (cleanup folder_id ss st)
  = (trace st ++ [observer_stop; observer_join;
                  entry CRITICAL (terminated_message (folder_path ss) folder_id) "red"])%list
  /\ clock (cleanup folder_id ss st) = clock st.
Proof.
  unfold cleanup, stop, log_message, record. cbn [trace clock folder_path].
  now rewrite <- !app_assoc.
Qed.

(** The messages of a log call can be read back from its entry. *)
Lemma entry_message_inj (level : Level) (color m m' : string) :
  entry level m color = entry level m' color -> m = m'.
Proof.
  unfold entry, log_text. intros H. injection H as H.
  apply append_inv_head in H. now injection H.
Qed.

Lemma error_is_not_terminated (path path' folder_id : string) (e : exn) :
  entry CRITICAL (error_message path e) "red"
  <> entry CRITICAL (terminated_message path' folder_id) "red".
Proof. intros H. apply entry_message_inj in H. discriminate H. Qed.

Lemma calm_occurrences (level_text : string) (d : list Call) :
  calm d -> occurrences (logging_log CRITICAL level_text) d = 0%nat.
Proof.
  unfold occurrences. intros quiet. apply count_occ_not_In. intros inside.
  unfold calm in quiet. rewrite Forall_forall in quiet.
  specialize (quiet _ inside). discriminate quiet.
Qed.

(** Settles the comparisons a count of occurrences has run into. *)
Ltac compare_calls :=
  repeat match goal with
         | |- context [Call_eq_dec ?a ?b] =>
             let same := fresh "same" in
             let differ := fresh "differ" in
             destruct (Call_eq_dec a b) as [same | differ];
             [try discriminate same | try (exfalso; apply differ; reflexivity)]
         end.

Lemma occurrences_app (c : Call) (a b : list Call) :
  occurrences c (a ++ b) = (occurrences c a + occurrences c b)%nat.
Proof. apply count_occ_app. Qed.

(** [monitor_folder] in terms of its loop, once the observer has started. *)
Lemma monitor_folder_unfold (fuel : nat) (path folder_id : string) (st : State) :
  watch_fails (w (clock st)) path = false ->
  monitor_folder w fuel path folder_id st
  = match heartbeat w fuel folder_id (fresh path) (started path st) with
    | Running (_, st') => Running st'
    | Done r (ss1, st1) =>
        Done (Returned tt)
          (cleanup folder_id ss1
             match r with
             | Returned _ => st1
             | Raised e =>
                 log_message CRITICAL (error_message (folder_path ss1) e) (Some "red") st1
             end)
    end.
Proof.
  intros ok. unfold monitor_folder. cbn [record clock]. rewrite ok.
  unfold guarded_heartbeat. fold (started path st). fold (fresh path).
  destruct (heartbeat_effect w folder_id fuel (fresh path) (started path st))
    as [_ (_ & _ & _ & _ & exc)].
  destruct (heartbeat w fuel folder_id (fresh path) (started path st))
    as [[ss1 st1] | [u|e] [ss1 st1]]; try reflexivity.
  now rewrite (exc e _ eq_refl).
Qed.

(** What a session whose loop has ended leaves behind. *)
Lemma monitor_folder_done (fuel : nat) (path folder_id : string) (st : State)
    (r1 : outcome unit) (ss1 : Session) (st1 : State) :
  watch_fails (w (clock st)) path = false ->
  heartbeat w fuel folder_id (fresh path) (started path st) = Done r1 (ss1, st1) ->
  exists st' : State,
    monitor_folder w fuel path folder_id st = Done (Returned tt) st'
    /\ trace st'
       = (trace st1
          ++ match r1 with
             | Returned _ => []
             | Raised e => [entry CRITICAL (error_message (folder_path ss1) e) "red"]
             end
          ++ [observer_stop; observer_join;
              entry CRITICAL (terminated_message (folder_path ss1) folder_id) "red"])%list.
Proof.
  intros ok loop. rewrite (monitor_folder_unfold fuel path folder_id st ok), loop.
  eexists. split; [reflexivity|].
  destruct r1 as [u|e]; rewrite (proj1 (cleanup_trace _ _ _)); [reflexivity|].
  cbn [log_message record trace]. now rewrite <- app_assoc.
Qed.

(** C4.  Once the observer has started, however the heartbeat loop ends
    (the test fails, on the watched path or on the one a rename has put
    in its place, or the body raises), [monitor_folder] returns normally,
    and the last things it does are: log the exception at CRITICAL level
    if there was one, stop the observer, join it, and log at CRITICAL
    level that monitoring has terminated, in a text that contains the
    identifier the session was given. *)
Theorem session_always_cleans_up (fuel : nat) (path folder_id : string) (st : State) :
  watch_fails (w (clock st)) path = false ->
  (forall (r1 : outcome unit) (ss1 : Session) (st1 : State),
      heartbeat w fuel folder_id (fresh path) (started path st) = Done r1 (ss1, st1) ->
      exists st' : State,
        monitor_folder w fuel path folder_id st = Done (Returned tt) st'
        /\ trace st'
           = (trace st1
              ++ match r1 with
                 | Returned _ => []
                 | Raised e => [entry CRITICAL (error_message (folder_path ss1) e) "red"]
                 end
              ++ [observer_stop; observer_join;
                  entry CRITICAL (terminated_message (folder_path ss1) folder_id) "red"])%list
        /\ contains folder_id
             (log_text CRITICAL (terminated_message (folder_path ss1) folder_id)
                (Some "red")) = true
        /\ (forall e, r1 = Raised e ->
            contains (str_of_exn e)
              (log_text CRITICAL (error_message (folder_path ss1) e) (Some "red")) = true))
  /\ (forall (r : outcome unit) (st' : State),
         monitor_folder w fuel path folder_id st = Done r st' -> r = Returned tt).
Proof.
  intros ok. split.
  - intros r1 ss1 st1 loop.
    destruct (monitor_folder_done fuel path folder_id st r1 ss1 st1 ok loop)
      as [st' [run tr]].
    exists st'. split; [exact run|]. split; [exact tr|]. split.
    + unfold terminated_message.
      replace ("Folder " ++ folder_path ss1 ++ " (ID: " ++ folder_id
               ++ ") monitoring terminated.")
        with (("Folder " ++ folder_path ss1 ++ " (ID: ") ++ folder_id
              ++ ") monitoring terminated.")
        by now rewrite !append_assoc.
      apply log_text_contains.
    + intros e _. unfold error_message.
      replace ("Error monitoring folder " ++ folder_path ss1 ++ ": " ++ str_of_exn e)
        with (("Error monitoring folder " ++ folder_path ss1 ++ ": ") ++ str_of_exn e)
        by now rewrite !append_assoc.
      apply log_text_contains_last.
  - intros r st'. rewrite (monitor_folder_unfold fuel path folder_id st ok).
    destruct (heartbeat w fuel folder_id (fresh path) (started path st))
      as [[ss1 st1] | r1 [ss1 st1]]; intros H; [discriminate H|].
    now injection H as <- _.
Qed.

(** C9.  [observer.stop()] sets a flag, so stopping a stopped observer
    changes nothing more.  In a session whose move handler has stopped
    the observer, the cleanup stops it again: the session still returns
    normally, [stop] has been called twice in all, and the termination
    message has been logged once. *)
Theorem second_stop_is_harmless (fuel : nat) (path folder_id : string) (st : State)
    (r1 : outcome unit) (ss1 : Session) (st1 : State) :
  watch_fails (w (clock st)) path = false ->
  heartbeat w fuel folder_id (fresh path) (started path st) = Done r1 (ss1, st1) ->
  observer_stopped ss1 = true ->
  (forall (ss0 : Session) (st0 : State),
      fst (stop (fst (stop ss0 st0)) (snd (stop ss0 st0))) = fst (stop ss0 st0)
      /\ trace (snd (stop (fst (stop ss0 st0)) (snd (stop ss0 st0))))
         = (trace st0 ++ [observer_stop; observer_stop])%list)
  /\ exists (st' : State) (d : list Call),
       monitor_folder w fuel path folder_id st = Done (Returned tt) st'
       /\ trace st' = (trace st ++ d)%list
       /\ stops d = 2%nat
       /\ occurrences
            (entry CRITICAL (terminated_message (folder_path ss1) folder_id) "red") d
          = 1%nat.
Proof.
  intros ok loop stopped. split.
  - intros ss0 st0. unfold stop, record. cbn [fst snd folder_path trace].
    split; [reflexivity | now rewrite <- app_assoc].
  - destruct (heartbeat_effect w folder_id fuel (fresh path) (started path st))
      as [dh (trh & sh & ch & _ & _)].
    rewrite loop in trh, sh. cbn [reached fst snd] in trh, sh.
    assert (flag_end : flag ss1 = 1%nat) by (unfold flag; now rewrite stopped).
    change (flag (fresh path)) with 0%nat in sh.
    destruct (monitor_folder_done fuel path folder_id st r1 ss1 st1 ok loop)
      as [st' (run & tr)].
    exists st'. eexists. split; [exact run|]. split.
    + rewrite tr, trh. unfold started, tick, record. cbn [trace].
      rewrite <- !app_assoc. reflexivity.
    + split.
      * rewrite !stops_app. destruct r1; cbn [stops filter is_stop entry length app]; lia.
      * rewrite !occurrences_app.
        replace (occurrences
                   (entry CRITICAL (terminated_message (folder_path ss1) folder_id) "red") dh)
          with 0%nat by (symmetry; apply (calm_occurrences _ dh ch)).
        destruct r1 as [u|e]; unfold occurrences; cbn [count_occ app].
        -- compare_calls. reflexivity.
        -- compare_calls; try reflexivity.
           exfalso. eapply error_is_not_terminated. eassumption.
Qed.

(** Whatever a session has done so far, its own calls come turn by turn. *)
Lemma monitor_folder_effect (fuel : nat) (path folder_id : string) (st : State) :
  exists d : list Call,
    trace (reached (monitor_folder w fuel path folder_id st)) = (trace st ++ d)%list
    /\ beats w (session_calls d).
Proof.
  destruct (watch_fails (w (clock st)) path) eqn:ok.
  - unfold monitor_folder. cbn [record clock]. rewrite ok.
    exists [observer_schedule path; observer_start]. split.
    + cbn [reached tick record trace]. now rewrite <- app_assoc.
    + apply beats_going.
  - rewrite (monitor_folder_unfold fuel path folder_id st ok).
    destruct (heartbeat_effect w folder_id fuel (fresh path) (started path st))
      as [dh (trh & _ & _ & bh & _)].
    destruct (heartbeat w fuel folder_id (fresh path) (started path st))
      as [[ss1 st1] | r [ss1 st1]]; cbn [reached fst snd] in *.
    + exists ([observer_schedule path; observer_start] ++ dh)%list. split.
      * rewrite trh. unfold started, tick, record. cbn [trace].
        now rewrite <- !app_assoc.
      * now rewrite session_calls_app.
    + exists ([observer_schedule path; observer_start] ++ dh
              ++ match r with
                 | Returned _ => []
                 | Raised e => [entry CRITICAL (error_message (folder_path ss1) e) "red"]
                 end
              ++ [observer_stop; observer_join;
                  entry CRITICAL (terminated_message (folder_path ss1) folder_id) "red"])%list.
      split.
      * rewrite (proj1 (cleanup_trace _ _ _)).
        destruct r as [u|e]; cbn [log_message record trace]; rewrite trh;
          unfold started, tick, record; cbn [trace]; now rewrite <- !app_assoc.
      * rewrite !session_calls_app.
        destruct r; cbn [session_calls filter is_session_call entry app];
          now rewrite app_nil_r.
Qed.

End Sessions.

Lemma session_always_cleans_up_witness :
  watch_fails (Scenario.renaming (clock (Scenario.at_tick 2))) "/srv/w" = false
  /\ exists st' : State,
       monitor_folder (L := Scenario.libs) Scenario.renaming 5 "/srv/w" "1700000000"
         (Scenario.at_tick 2) = Done (Returned tt) st'.
Proof.
  split.
  - reflexivity.
  - edestruct (proj1 (session_always_cleans_up (L := Scenario.libs) Scenario.renaming 5
                        "/srv/w" "1700000000" (Scenario.at_tick 2) eq_refl))
      as [st' [run _]].
    + vm_compute. reflexivity.
    + exists st'. exact run.
Defined.

Lemma second_stop_is_harmless_witness :
  exists (st' : State) (d : list Call),
    monitor_folder (L := Scenario.libs) Scenario.renaming 5 "/srv/w" "1700000000"
      (Scenario.at_tick 2) = Done (Returned tt) st'
    /\ trace st' = (trace (Scenario.at_tick 2) ++ d)%list
    /\ stops d = 2%nat
    /\ occurrences
         (entry (L := Scenario.libs) CRITICAL
            (terminated_message "/srv/w2" "1700000000") "red") d
       = 1%nat.
Proof.
  eapply (second_stop_is_harmless (L := Scenario.libs) Scenario.renaming 5
            "/srv/w" "1700000000" (Scenario.at_tick 2) (Returned tt)
            {| folder_path := "/srv/w2"; observer_stopped := true |}).
  - reflexivity.
  - vm_compute. reflexivity.
  - reflexivity.
Defined.

(** ** The heartbeat period *)

Lemma reads_session_calls (key : string) (calls : list Call) :
  reads key (session_calls calls) = reads key calls.
Proof.
  induction calls as [|c calls IH]; [reflexivity|].
  destruct c; cbn [session_calls filter is_session_call reads]; fold (session_calls calls);
    now rewrite ?IH.
Qed.

Lemma found_session_calls (calls : list Call) :
  found (session_calls calls) = found calls.
Proof.
  induction calls as [|c calls IH]; [reflexivity|].
  destruct c as [p [|]| | | | | | | |];
    cbn [session_calls filter is_session_call found]; fold (session_calls calls);
    now rewrite ?IH.
Qed.

Section Periods.

Context {L : Libs}.
Variable w : World.

(** A loop that is between two turns, or has ended, has read PERIODICITY
    once for every poll that found the path. *)
Lemma beats_reads (calls : list Call) :
  beats w calls -> reads "PERIODICITY" calls = found calls.
Proof.
  intros H. induction H; cbn [reads found String.eqb Ascii.eqb Bool.eqb];
    try reflexivity.
  now rewrite IHbeats.
Qed.

(** C3, as the code has it.  A session reads PERIODICITY in every turn of
    its heartbeat loop, after the poll and before the sleep, and not once
    at its start: it has read the variable as many times as its polls
    have found the path.  What it reads is the process environment, which
    is filled when the interpreter starts and which the script never
    writes; so every turn of a session sleeps for the same period, the
    integer that PERIODICITY holds there, whatever is done to the
    configuration outside the process meanwhile. *)
Theorem period_read_every_turn (fuel : nat) (path folder_id : string) (st : State) :
  exists d : list Call,
    trace (reached (monitor_folder w fuel path folder_id st)) = (trace st ++ d)%list
    /\ beats w (session_calls d)
    /\ reads "PERIODICITY" d = found d
    /\ Forall (fun secs => period_of (os_environ w "PERIODICITY") = Returned secs)
         (sleeps d)
    /\ (forall a b : Z, In a (sleeps d) -> In b (sleeps d) -> a = b).
Proof.
  destruct (monitor_folder_effect w fuel path folder_id st) as [d [tr b]].
  assert (same : Forall (fun secs => period_of (os_environ w "PERIODICITY") = Returned secs)
                   (sleeps d)).
  { rewrite <- sleeps_session_calls.
    apply (Forall_impl _ (P := fun secs =>
             period_of (os_environ w "PERIODICITY") = Returned secs
             /\ sleep_refusal secs = None)); [|exact (beats_sleeps w _ b)].
    intros secs [H _]. exact H. }
  exists d. split; [exact tr|]. split; [exact b|]. split; [|split; [exact same|]].
  - rewrite <- reads_session_calls, <- found_session_calls. exact (beats_reads _ b).
  - intros x y Hx Hy. rewrite Forall_forall in same.
    pose proof (same x Hx) as px. pose proof (same y Hy) as py.
    rewrite px in py. now injection py.
Qed.

End Periods.

Lemma period_read_every_turn_witness :
  exists d : list Call,
    trace (reached (monitor_folder (L := Scenario.libs) Scenario.brief 5 "/srv/w"
                      "1700000000" Scenario.st0))
    = (trace Scenario.st0 ++ d)%list
    /\ reads "PERIODICITY" d = found d
    /\ Forall (fun secs => secs = 7) (sleeps d).
Proof.
  destruct (period_read_every_turn (L := Scenario.libs) Scenario.brief 5 "/srv/w"
              "1700000000" Scenario.st0) as [d (tr & _ & once & same & _)].
  exists d. split; [exact tr|]. split; [exact once|].
  apply (Forall_impl _ (P := fun secs =>
           period_of (L := Scenario.libs) (os_environ Scenario.brief "PERIODICITY")
           = Returned secs)); [|exact same].
  intros secs H. now injection H.
Defined.

(** C3, as stated, fails: this session, which makes two turns and ends at
    its third poll, reads PERIODICITY twice, once in each turn. *)
Lemma period_reread_counterexample :
  ~ (reads "PERIODICITY"
       (trace (reached (monitor_folder (L := Scenario.libs) Scenario.brief 5 "/srv/w"
                          "1700000000" Scenario.st0))) <= 1)%nat.
Proof.
  assert (twice : reads "PERIODICITY"
                    (trace (reached (monitor_folder (L := Scenario.libs) Scenario.brief 5
                                       "/srv/w" "1700000000" Scenario.st0))) = 2%nat)
    by (vm_compute; reflexivity).
  rewrite twice. lia.
Qed.

(** ** An unreadable period *)

Section Unreadable.

Context {L : Libs}.
Variable w : World.

Lemma handler_entry_not_heartbeat (path folder_id : string) (c : Call) :
  handler_entry c -> c <> entry INFO (heartbeat_message path folder_id) "green".
Proof.
  intros Hc same. destruct Hc;
    try discriminate same; apply entry_message_inj in same; discriminate same.
Qed.

(** C10.  Let the observer start, let the first poll of the session find
    the tracked path, and let PERIODICITY hold a string that [int]
    rejects.  Then the session, given any fuel, ends in its first turn:
    it polls once, logs one heartbeat, reads PERIODICITY, logs the
    [ValueError] at CRITICAL level, stops and joins the observer, logs the
    termination and returns normally.  It never sleeps: nothing stands in
    for the value that could not be read.  Whatever the handler logged in
    between is no heartbeat. *)
Theorem unreadable_period_ends_session (fuel : nat) (path folder_id v : string)
    (st : State) :
  watch_fails (w (clock st)) path = false ->
  present (w (S (clock st)))
    (folder_path (fst (deliver w (fresh path) (started path st)))) = true ->
  os_environ w "PERIODICITY" = Some v ->
  int_literal v = None ->
  exists (st' : State) (d1 d4 : list Call) (tracked tracked' : string),
    monitor_folder w (S fuel) path folder_id st = Done (Returned tt) st'
    /\ tracked = folder_path (fst (deliver w (fresh path) (started path st)))
    /\ trace st'
       = (trace st
          ++ [observer_schedule path; observer_start]
          ++ d1
          ++ [os_path_exists tracked true;
              entry INFO (heartbeat_message tracked folder_id) "green"]
          ++ d4
          ++ [os_getenv "PERIODICITY" (Some v);
              entry CRITICAL (error_message tracked' (ValueError (int_error v))) "red";
              observer_stop; observer_join;
              entry CRITICAL (terminated_message tracked' folder_id) "red"])%list
    /\ Forall handler_entry d1 /\ Forall handler_entry d4
    /\ (forall p : string,
           ~ In (entry INFO (heartbeat_message p folder_id) "green") (d1 ++ d4))
    /\ sleeps (d1 ++ d4) = [].
Proof.
  intros ok there value bad.
  rewrite (monitor_folder_unfold w (S fuel) path folder_id st ok).
  cbn [heartbeat]. unfold heartbeat_turn.
  destruct (deliver_effect w (fresh path) (started path st)) as [d1 (tr1 & ck1 & h1 & _)].
  destruct (deliver w (fresh path) (started path st)) as [ss1 st1].
  cbn [fst snd] in tr1, ck1, there.
  assert (ck0 : clock (started path st) = S (clock st)) by reflexivity.
  unfold exists_. rewrite ck1, ck0, there.
  set (st3 := log_message _ _ _ _).
  destruct (deliver_effect w ss1 st3) as [d4 (tr4 & ck4 & h4 & _)].
  destruct (deliver w ss1 st3) as [ss4 st4]. cbn [fst snd] in tr4, ck4.
  assert (ck3 : clock st3 = S (S (clock st))) by (cbn; now rewrite ck1).
  unfold getenv. rewrite value.
  unfold period_of, int_of_str. rewrite bad.
  exists (cleanup folder_id ss4
            (log_message CRITICAL
               (error_message (folder_path ss4) (ValueError (int_error v)))
               (Some "red") (tick (record (os_getenv "PERIODICITY" (Some v)) st4)))),
    d1, d4, (folder_path ss1), (folder_path ss4).
  split; [reflexivity|]. split; [reflexivity|]. split.
  - rewrite (proj1 (cleanup_trace _ _ _)).
    cbn [log_message tick record trace]. rewrite tr4.
    subst st3. cbn [log_message tick record trace]. rewrite tr1.
    unfold started, tick, record. cbn [trace].
    rewrite <- !app_assoc. reflexivity.
  - split; [exact h1|]. split; [exact h4|]. split.
    + intros p inside. apply in_app_or in inside.
      assert (h : Forall handler_entry (d1 ++ d4)) by now apply Forall_app.
      rewrite Forall_forall in h.
      apply (handler_entry_not_heartbeat p folder_id _ (h _ (in_or_app _ _ _ inside))).
      reflexivity.
    + rewrite <- sleeps_session_calls.
      rewrite (handler_entries_silent (d1 ++ d4)); [reflexivity|].
      now apply Forall_app.
Qed.

End Unreadable.

Lemma unreadable_period_ends_session_witness :
  exists (st' : State) (d1 d4 : list Call) (tracked tracked' : string),
    monitor_folder (L := Scenario.libs) Scenario.garbled 4 "/srv/w" "1700000000"
      Scenario.st0 = Done (Returned tt) st'
    /\ tracked = "/srv/w"
    /\ trace st'
       = (trace Scenario.st0
          ++ [observer_schedule "/srv/w"; observer_start]
          ++ d1
          ++ [os_path_exists tracked true;
              entry (L := Scenario.libs) INFO (heartbeat_message tracked "1700000000")
                "green"]
          ++ d4
          ++ [os_getenv "PERIODICITY" (Some "abc");
              entry (L := Scenario.libs) CRITICAL
                (error_message tracked'
                   (ValueError "invalid literal for int() with base 10: 'abc'"))
                "red";
              observer_stop; observer_join;
              entry (L := Scenario.libs) CRITICAL
                (terminated_message tracked' "1700000000") "red"])%list
    /\ Forall (handler_entry (L := Scenario.libs)) d1
    /\ Forall (handler_entry (L := Scenario.libs)) d4
    /\ (forall p : string,
           ~ In (entry (L := Scenario.libs) INFO (heartbeat_message p "1700000000")
                   "green") (d1 ++ d4))
    /\ sleeps (d1 ++ d4) = [].
Proof.
  apply (unreadable_period_ends_session (L := Scenario.libs) Scenario.garbled 3
           "/srv/w" "1700000000" "abc" Scenario.st0); reflexivity.
Defined.

(** ** The supervisor loop *)

(** Brings nested appends to one flat list. *)
Ltac flatten := repeat (progress (cbn [app]; rewrite <- ?app_assoc)).

Section Supervisor.

Context {L : Libs}.
Variable w : World.
Variable path : string.

Lemma wait_loop_extends (fuel : nat) :
  forall st : State,
  exists d : list Call, trace (reached (wait_loop w fuel path st)) = (trace st ++ d)%list.
Proof.
  induction fuel as [|fuel IH]; intros st; cbn [wait_loop].
  - exists []. now rewrite app_nil_r.
  - unfold exists_. destruct (present (w (clock st)) path).
    + eexists. reflexivity.
    + rewrite sleep_one.
      destruct (IH (tick (record (time_sleep 1)
                            (tick (record (os_path_exists path false) st))))) as [d tr].
      eexists. rewrite tr. cbn [tick record trace]. rewrite <- !app_assoc. reflexivity.
Qed.

(** A wait that is given any fuel begins with its log entry and a poll of
    the path it was called with. *)
Lemma wait_for_folder_begins (fuel : nat) (st : State) :
  exists rest : list Call,
    trace (reached (wait_for_folder w (S fuel) path st))
    = (trace st ++ entry INFO (waiting_message path) "green"
         :: os_path_exists path (present (w (clock st)) path) :: rest)%list.
Proof.
  unfold wait_for_folder. cbn [wait_loop]. unfold exists_.
  cbn [log_message record clock].
  destruct (present (w (clock st)) path).
  - exists []. cbn [reached log_message tick record trace]. now rewrite <- app_assoc.
  - rewrite sleep_one.
    match goal with
    | |- context [wait_loop w fuel path ?s] =>
        destruct (wait_loop_extends fuel s) as [d tr]
    end.
    eexists. rewrite tr. cbn [log_message tick record trace].
    rewrite <- !app_assoc. reflexivity.
Qed.

Lemma main_iteration_begins (fuel : nat) (st : State) :
  exists rest : list Call,
    trace (reached (main_iteration w (S fuel) path st))
    = (trace st ++ entry INFO (waiting_message path) "green"
         :: os_path_exists path (present (w (clock st)) path) :: rest)%list.
Proof.
  destruct (wait_for_folder_begins fuel st) as [rest tr].
  unfold main_iteration.
  destruct (wait_for_folder w (S fuel) path st) as [st1 | [u|e] st1];
    cbn [reached] in tr; try (exists rest; exact tr).
  unfold get_folder_id, do_stat.
  set (st2 := tick (record (os_stat path) st1)).
  assert (tr2 : trace st2
                = (trace st ++ entry INFO (waiting_message path) "green"
                     :: os_path_exists path (present (w (clock st)) path)
                     :: rest ++ [os_stat path])%list)
    by (cbn; rewrite tr, <- app_assoc; reflexivity).
  destruct (stat (w (clock st1)) path) as [t| |]; cbn [is_FileNotFoundError].
  - rewrite str_of_int_truthy.
    set (st3 := log_message _ _ _ st2).
    destruct (monitor_folder_effect w (S fuel) path (str_of_int (int_of_float t)) st3)
      as [d (trm & _)].
    exists (rest ++ [os_stat path]
            ++ [entry INFO (created_message path (str_of_int (int_of_float t))
                              (get_ident (w (clock st2)))) "green"] ++ d)%list.
    replace (trace (reached
                (match monitor_folder w (S fuel) path (str_of_int (int_of_float t)) st3 with
                 | Running s => Running s
                 | Done _ s => Done (Returned tt) s
                 end)))
      with (trace (reached (monitor_folder w (S fuel) path
                              (str_of_int (int_of_float t)) st3)))
      by (destruct (monitor_folder w (S fuel) path _ st3); reflexivity).
    rewrite trm. subst st3. cbn [log_message record trace]. rewrite tr2.
    flatten. reflexivity.
  - eexists. cbn [reached truthy log_message record trace]. rewrite tr2.
    flatten. reflexivity.
  - exists (rest ++ [os_stat path])%list. exact tr2.
Qed.

(** A turn that comes to an end has waited on [path], found it, and then
    asked [os.stat] about [path]. *)
Lemma main_iteration_done (fuel : nat) (st : State) (r : outcome unit) (st' : State) :
  main_iteration w fuel path st = Done r st' ->
  exists (n : nat) (rest : list Call),
    trace st'
    = (trace st ++ entry INFO (waiting_message path) "green"
         :: polls path n ++ os_path_exists path true :: os_stat path :: rest)%list.
Proof.
  unfold main_iteration.
  destruct (wait_for_folder w fuel path st) as [st1 | r1 st1] eqn:waited;
    [discriminate|].
  unfold wait_for_folder in waited. apply wait_loop_done in waited.
  destruct waited as [-> [n (_ & tr1 & _)]].
  cbn [log_message record trace] in tr1. rewrite <- app_assoc in tr1.
  unfold get_folder_id, do_stat.
  set (st2 := tick (record (os_stat path) st1)).
  assert (tr2 : forall tail,
             (trace st2 ++ tail
              = trace st ++ entry INFO (waiting_message path) "green"
                  :: polls path n ++ os_path_exists path true :: os_stat path :: tail)%list).
  { intros tail. cbn. rewrite tr1. cbn [app]. rewrite <- !app_assoc. cbn [app].
    do 2 f_equal. rewrite <- app_assoc. reflexivity. }
  destruct (stat (w (clock st1)) path) as [t| |]; cbn [is_FileNotFoundError].
  - rewrite str_of_int_truthy.
    set (st3 := log_message _ _ _ st2).
    destruct (monitor_folder_effect w fuel path (str_of_int (int_of_float t)) st3)
      as [d (trm & _)].
    destruct (monitor_folder w fuel path (str_of_int (int_of_float t)) st3)
      as [s | r' s]; [discriminate|].
    intros H. injection H as _ <-. cbn [reached] in trm.
    exists n. eexists. rewrite trm. subst st3. cbn [log_message record trace].
    rewrite <- app_assoc. apply tr2.
  - intros H. injection H as _ <-. exists n. eexists.
    cbn [truthy log_message record trace]. apply tr2.
  - intros H. injection H as _ <-. exists n, []. rewrite <- (app_nil_r (trace st2)).
    apply tr2.
Qed.

(** The loop, unrolled at its far end. *)
Lemma main_loop_last (fuel turns : nat) :
  forall st st_k : State,
    main_loop w turns fuel path st = Done (Returned tt) st_k ->
    main_loop w (S turns) fuel path st
    = match main_iteration w fuel path st_k with
      | Running s => Running s
      | Done (Raised e) s => Done (Raised e) s
      | Done (Returned _) s => Done (Returned tt) s
      end.
Proof.
  induction turns as [|turns IH]; intros st st_k H.
  - cbn [main_loop] in H. injection H as <-. cbn [main_loop].
    destruct (main_iteration w fuel path st) as [s | [u|e] s]; reflexivity.
  - change (main_loop w (S (S turns)) fuel path st)
      with (match main_iteration w fuel path st with
            | Running s => Running s
            | Done (Raised e) s => Done (Raised e) s
            | Done (Returned _) s => main_loop w (S turns) fuel path s
            end).
    cbn [main_loop] in H.
    destruct (main_iteration w fuel path st) as [s | [u|e] s]; try discriminate H.
    apply IH. exact H.
Qed.

(** C5.  After any number of completed turns of [main]'s loop, whatever
    their sessions did to the path they tracked, the next turn waits on
    the path [main] was given: it logs that it waits for that path and
    polls that path, and if the turn comes to an end it has also asked
    [os.stat] about that same path. *)
Theorem supervisor_keeps_configured_path (turns fuel : nat) (st st_k : State) :
  main_loop w turns (S fuel) path st = Done (Returned tt) st_k ->
  (exists rest : list Call,
      trace (reached (main_loop w (S turns) (S fuel) path st))
      = (trace st_k ++ entry INFO (waiting_message path) "green"
           :: os_path_exists path (present (w (clock st_k)) path) :: rest)%list)
  /\ (forall (r : outcome unit) (st' : State),
         main_loop w (S turns) (S fuel) path st = Done r st' ->
         exists (n : nat) (rest : list Call),
           trace st'
           = (trace st_k ++ entry INFO (waiting_message path) "green"
                :: polls path n ++ os_path_exists path true :: os_stat path :: rest)%list).
Proof.
  intros completed. rewrite (main_loop_last (S fuel) turns st st_k completed). split.
  - destruct (main_iteration_begins fuel st_k) as [rest tr].
    exists rest. rewrite <- tr.
    destruct (main_iteration w (S fuel) path st_k) as [s | [u|e] s]; reflexivity.
  - intros r st' H.
    destruct (main_iteration w (S fuel) path st_k) as [s | r' s] eqn:turn;
      [discriminate H|].
    apply main_iteration_done in turn.
    destruct r' as [u|e]; injection H as _ <-; exact turn.
Qed.

(** C8, as the code has it.  When the wait has returned and the path is
    gone by the time [get_folder_id] stats it, which is the one failure
    [get_folder_id] absorbs, the turn logs one CRITICAL entry and is over:
    no observer is scheduled or started, nothing is slept, the loop goes
    on, and the next thing it does is wait for the path again. *)
Theorem failed_resolution_restarts (turns fuel : nat) (st st_w : State) :
  wait_for_folder w fuel path st = Done (Returned tt) st_w ->
  stat (w (clock st_w)) path = stat_missing ->
  exists st_f : State,
    main_iteration w fuel path st = Done (Returned tt) st_f
    /\ trace st_f
       = (trace st_w ++ [os_stat path; entry CRITICAL (failed_message path) "red"])%list
    /\ clock st_f = S (clock st_w)
    /\ main_loop w (S turns) fuel path st = main_loop w turns fuel path st_f
    /\ exists rest : list Call,
         trace (reached (main_loop w (S (S turns)) fuel path st))
         = (trace st_f ++ entry INFO (waiting_message path) "green"
              :: os_path_exists path (present (w (clock st_f)) path) :: rest)%list.
Proof.
  intros waited gone.
  assert (turn : main_iteration w fuel path st
                 = Done (Returned tt)
                     (log_message CRITICAL (failed_message path) (Some "red")
                        (tick (record (os_stat path) st_w)))).
  { unfold main_iteration. rewrite waited. unfold get_folder_id, do_stat.
    rewrite gone. reflexivity. }
  eexists. split; [exact turn|]. split; [|split; [reflexivity|split]].
  - cbn [log_message tick record trace]. now rewrite <- app_assoc.
  - cbn [main_loop]. now rewrite turn.
  - destruct fuel as [|fuel']; [discriminate waited|].
    change (main_loop w (S (S turns)) (S fuel') path st)
      with (match main_iteration w (S fuel') path st with
            | Running s => Running s
            | Done (Raised e) s => Done (Raised e) s
            | Done (Returned _) s => main_loop w (S turns) (S fuel') path s
            end).
    rewrite turn.
    set (st_f := log_message _ _ _ _).
    destruct (main_iteration_begins fuel' st_f) as [rest tr].
    cbn [main_loop].
    destruct (main_iteration w (S fuel') path st_f) as [s | [u|e] s];
      cbn [reached] in tr; try (exists rest; exact tr).
    clear turn.
    assert (extends : forall k s0, exists d,
                 trace (reached (main_loop w k (S fuel') path s0)) = (trace s0 ++ d)%list).
    { induction k as [|k IHk]; intros s0; cbn [main_loop].
      - exists []. now rewrite app_nil_r.
      - destruct (main_iteration_begins fuel' s0) as [rest0 tr0].
        destruct (main_iteration w (S fuel') path s0) as [s1 | [u1|e1] s1];
          cbn [reached] in tr0; try (eexists; exact tr0).
        destruct (IHk s1) as [d trd]. eexists. rewrite trd, tr0.
        rewrite <- app_assoc. reflexivity. }
    destruct (extends turns s) as [d trd].
    eexists. rewrite trd, tr. rewrite <- app_assoc. cbn [app]. reflexivity.
Qed.

End Supervisor.

Lemma supervisor_keeps_configured_path_witness :
  main_loop (L := Scenario.libs) Scenario.renaming 1 5 "/srv/w" Scenario.st0
  = Done (Returned tt)
      (reached (main_loop (L := Scenario.libs) Scenario.renaming 1 5 "/srv/w" Scenario.st0))
  /\ In (entry (L := Scenario.libs) CRITICAL (terminated_message "/srv/w2" "1700000000")
           "red")
        (trace (reached (main_loop (L := Scenario.libs) Scenario.renaming 1 5 "/srv/w"
                           Scenario.st0)))
  /\ exists rest : list Call,
       trace (reached (main_loop (L := Scenario.libs) Scenario.renaming 2 5 "/srv/w"
                         Scenario.st0))
       = (trace (reached (main_loop (L := Scenario.libs) Scenario.renaming 1 5 "/srv/w"
                            Scenario.st0))
          ++ entry (L := Scenario.libs) INFO (waiting_message "/srv/w") "green"
             :: os_path_exists "/srv/w"
                  (present
                     (Scenario.renaming
                        (clock (reached (main_loop (L := Scenario.libs) Scenario.renaming
                                           1 5 "/srv/w" Scenario.st0))))
                     "/srv/w")
             :: rest)%list.
Proof.
  assert (completed :
            main_loop (L := Scenario.libs) Scenario.renaming 1 5 "/srv/w" Scenario.st0
            = Done (Returned tt)
                (reached (main_loop (L := Scenario.libs) Scenario.renaming 1 5 "/srv/w"
                            Scenario.st0)))
    by (vm_compute; reflexivity).
  split; [exact completed|]. split.
  - vm_compute. tauto.
  - exact (proj1 (supervisor_keeps_configured_path (L := Scenario.libs) Scenario.renaming
                    "/srv/w" 1 4 Scenario.st0 _ completed)).
Defined.

Lemma failed_resolution_restarts_witness :
  exists st_f : State,
    main_iteration (L := Scenario.libs) Scenario.racy 3 "/srv/w" Scenario.st0
    = Done (Returned tt) st_f
    /\ trace st_f
       = (trace (reached (wait_for_folder (L := Scenario.libs) Scenario.racy 3 "/srv/w"
                            Scenario.st0))
          ++ [os_stat "/srv/w";
              entry (L := Scenario.libs) CRITICAL (failed_message "/srv/w") "red"])%list
    /\ clock st_f = 2%nat.
Proof.
  destruct (failed_resolution_restarts (L := Scenario.libs) Scenario.racy "/srv/w" 0 3
              Scenario.st0
              (reached (wait_for_folder (L := Scenario.libs) Scenario.racy 3 "/srv/w"
                          Scenario.st0)))
    as [st_f (turn & tr & ck & _)].
  - vm_compute. reflexivity.
  - reflexivity.
  - exists st_f. split; [exact turn|]. split; [exact tr|]. exact ck.
Defined.

(** C8, as stated, fails: here the wait returns and the resolution of the
    identity fails, the stat being refused for another reason than a
    missing path.  Nothing is logged at CRITICAL level and the loop is not
    taken up again: [main] ends with the [OSError]. *)
Lemma failed_resolution_counterexample :
  wait_for_folder (L := Scenario.libs) Scenario.forbidden 2 "/srv/w" Scenario.st0
  = Done (Returned tt)
      (reached (wait_for_folder (L := Scenario.libs) Scenario.forbidden 2 "/srv/w"
                  Scenario.st0))
  /\ fst (get_folder_id Scenario.forbidden "/srv/w"
            (reached (wait_for_folder (L := Scenario.libs) Scenario.forbidden 2 "/srv/w"
                        Scenario.st0)))
     = Raised OSError
  /\ main_loop (L := Scenario.libs) Scenario.forbidden 3 2 "/srv/w" Scenario.st0
     = Done (Raised OSError)
         (reached (main_loop (L := Scenario.libs) Scenario.forbidden 3 2 "/srv/w"
                     Scenario.st0))
  /\ filter is_critical
       (trace (reached (main_loop (L := Scenario.libs) Scenario.forbidden 3 2 "/srv/w"
                          Scenario.st0)))
     = [].
Proof.
  repeat split; vm_compute; reflexivity.
Qed.

(** * Further properties of the script *)

(** ** [log_message] *)

Section Logging.

Context {L : Libs}.

(** [log_message] hands [logging] one entry at the level it was given:
    the level's name in brackets, a space, the message.  The name goes
    through [colored] only when a colour is given and is not empty; the
    clock is not touched. *)
Theorem log_message_entry (level : Level) (message : string) (color : option string)
    (st : State) :
  clock (log_message level message color st) = clock st
  /\ exists name : string,
       trace (log_message level message color st)
       = (trace st ++ [logging_log level ("[" ++ name ++ "] " ++ message)])%list
       /\ (color = None \/ color = Some EmptyString -> name = getLevelName level)
       /\ (forall c : string,
              color = Some c -> c <> EmptyString -> name = colored (getLevelName level) c).
Proof.
  split; [reflexivity|].
  unfold log_message, log_text, record. cbn [trace].
  destruct color as [[|a c]|]; cbn [truthy]; eexists; (split; [reflexivity|]); split;
    try (intros _; reflexivity).
  - intros c' H ne. injection H as <-. contradiction.
  - intros [H|H]; discriminate H.
  - intros c' H _. now injection H as <-.
  - intros c' H. discriminate H.
Qed.

End Logging.

(** ** [get_folder_id] *)

Lemma str_of_int_inj (n m : Z) : str_of_int n = str_of_int m -> n = m.
Proof.
  unfold str_of_int. intros H.
  apply DecimalZ.to_int_inj.
  assert (some : Some (Z.to_int n) = Some (Z.to_int m))
    by (rewrite <- !NilEmpty.isi; now rewrite H).
  now injection some.
Qed.

(** Two folders that are both there when they are stat-ed get the same
    identifier exactly when their creation times have the same integer
    part: a folder deleted and created again within one second is taken
    for the same folder. *)
Theorem folder_id_by_whole_second (w w' : World) (path path' : string)
    (st st' : State) (t t' : Q) :
  stat (w (clock st)) path = stat_ok t ->
  stat (w' (clock st')) path' = stat_ok t' ->
  (fst (get_folder_id w path st) = fst (get_folder_id w' path' st')
   <-> int_of_float t = int_of_float t').
Proof.
  intros H H'. unfold get_folder_id, do_stat. rewrite H, H'. cbn [fst]. split.
  - intros same. injection same as same. now apply str_of_int_inj.
  - now intros ->.
Qed.

Lemma folder_id_by_whole_second_witness :
  fst (get_folder_id Scenario.quiet "/srv/w" Scenario.st0)
  = fst (get_folder_id Scenario.quiet_later "/srv/w" Scenario.st0).
Proof.
  apply (folder_id_by_whole_second Scenario.quiet Scenario.quiet_later
           "/srv/w" "/srv/w" Scenario.st0 Scenario.st0
           (17000000005 # 10) (17000000009 # 10)); reflexivity.
Defined.

(** ** More on sessions *)

Section MoreSessions.

Context {L : Libs}.
Variable w : World.

(** A session that comes to an end has called [observer.stop()] once in
    its cleanup and once more exactly when its handler had seen the
    watched folder renamed: once or twice in all. *)
Theorem stop_called_once_or_twice (fuel : nat) (path folder_id : string) (st : State)
    (r1 : outcome unit) (ss1 : Session) (st1 : State) :
  watch_fails (w (clock st)) path = false ->
  heartbeat w fuel folder_id (fresh path) (started path st) = Done r1 (ss1, st1) ->
  exists (st' : State) (d : list Call),
    monitor_folder w fuel path folder_id st = Done (Returned tt) st'
    /\ trace st' = (trace st ++ d)%list
    /\ stops d = (if observer_stopped ss1 then 2 else 1)%nat.
Proof.
  intros ok loop.
  destruct (heartbeat_effect w folder_id fuel (fresh path) (started path st))
    as [dh (trh & sh & _)].
  rewrite loop in trh, sh. cbn [reached fst snd] in trh, sh.
  change (flag (fresh path)) with 0%nat in sh.
  destruct (monitor_folder_done w fuel path folder_id st r1 ss1 st1 ok loop)
    as [st' (run & tr)].
  exists st'. eexists. split; [exact run|]. split.
  - rewrite tr, trh. unfold started, tick, record. cbn [trace].
    rewrite <- !app_assoc. reflexivity.
  - rewrite !stops_app. unfold flag in sh.
    destruct r1, (observer_stopped ss1);
      cbn [stops filter is_stop entry length app]; lia.
Qed.

(** With PERIODICITY unset, every sleep of a session lasts
    [DEFAULT_PERIODICITY], five seconds. *)
Theorem unset_period_sleeps_five (fuel : nat) (path folder_id : string) (st : State) :
  os_environ w "PERIODICITY" = None ->
  exists d : list Call,
    trace (reached (monitor_folder w fuel path folder_id st)) = (trace st ++ d)%list
    /\ Forall (fun secs => secs = 5) (sleeps d).
Proof.
  intros unset.
  destruct (monitor_folder_effect w fuel path folder_id st) as [d [tr b]].
  exists d. split; [exact tr|].
  rewrite <- sleeps_session_calls.
  apply beats_sleeps in b. rewrite unset in b.
  apply (Forall_impl _ (P := fun secs => period_of None = Returned secs
                                         /\ sleep_refusal secs = None)); [|exact b].
  intros secs [H _]. now injection H.
Qed.

(** A loop that is still running after [n] turns goes on from where it
    is when it is given more fuel. *)
Lemma heartbeat_resume (folder_id : string) (n m : nat) :
  forall (ss : Session) (st : State) (ss' : Session) (st' : State),
    heartbeat w n folder_id ss st = Running (ss', st') ->
    heartbeat w (n + m) folder_id ss st = heartbeat w m folder_id ss' st'.
Proof.
  induction n as [|n IH]; intros ss st ss' st' H.
  - cbn [heartbeat] in H. now injection H as <- <-.
  - cbn [heartbeat Nat.add] in *.
    destruct (heartbeat_turn w folder_id ss st) as [ss1 st1 | r ss1 st1];
      [now apply IH | discriminate H].
Qed.

(** A session ends at the first poll that does not find the path it
    tracks.  However many turns it has made, when the next poll fails it
    logs no further heartbeat, reads no environment and does not sleep: it
    stops and joins the observer, logs the termination and returns. *)
Theorem deleted_folder_ends_session (n fuel : nat) (path folder_id : string)
    (st : State) (ss_n : Session) (st_n : State) :
  watch_fails (w (clock st)) path = false ->
  heartbeat w n folder_id (fresh path) (started path st) = Running (ss_n, st_n) ->
  present (w (clock st_n)) (folder_path (fst (deliver w ss_n st_n))) = false ->
  exists (st' : State) (d1 : list Call) (tracked : string),
    monitor_folder w (n + S fuel) path folder_id st = Done (Returned tt) st'
    /\ tracked = folder_path (fst (deliver w ss_n st_n))
    /\ Forall handler_entry d1
    /\ trace st'
       = (trace st_n
          ++ d1
          ++ [os_path_exists tracked false; observer_stop; observer_join;
              entry CRITICAL (terminated_message tracked folder_id) "red"])%list.
Proof.
  intros ok running away.
  rewrite (monitor_folder_unfold w (n + S fuel) path folder_id st ok).
  rewrite (heartbeat_resume folder_id n (S fuel) _ _ _ _ running).
  cbn [heartbeat]. unfold heartbeat_turn.
  destruct (deliver_effect w ss_n st_n) as [d1 (tr1 & ck1 & h1 & _)].
  destruct (deliver w ss_n st_n) as [ss1 st1].
  cbn [fst snd] in tr1, ck1, away.
  unfold exists_. rewrite ck1, away.
  eexists. exists d1, (folder_path ss1).
  split; [reflexivity|]. split; [reflexivity|]. split; [exact h1|].
  rewrite (proj1 (cleanup_trace _ _ _)). cbn [tick record trace]. rewrite tr1.
  rewrite <- !app_assoc. reflexivity.
Qed.

(** What [time.sleep] refuses, and how. *)
Lemma sleep_refusal_cases (secs : Z) (e : exn) :
  sleep_refusal secs = Some e ->
  (e = ValueError "sleep length must be non-negative" /\ - SLEEP_MAX <= secs < 0)
  \/ (e = OverflowError "timestamp too large to convert to C _PyTime_t"
      /\ (secs < - SLEEP_MAX \/ SLEEP_MAX < secs)).
Proof.
  unfold sleep_refusal.
  destruct (Z.ltb_spec secs (- SLEEP_MAX)) as [low|low];
    destruct (Z.ltb_spec SLEEP_MAX secs) as [high|high]; cbn [orb];
    try (intros H; injection H as <-; right; split; [reflexivity | lia]).
  destruct (Z.ltb_spec secs 0) as [neg|nonneg]; intros H; [|discriminate H].
  injection H as <-. left. split; [reflexivity | lia].
Qed.

(** A PERIODICITY that [int] reads and [time.sleep] refuses ends the
    session in its first turn, and nothing is slept.  A negative number
    of seconds is refused with a [ValueError]; a number too large either
    way for the clock's 64 bits of nanoseconds with an [OverflowError].
    Both take the path of any other failure of the loop: logged at
    CRITICAL level, then stop, join and the termination message. *)
Theorem refused_period_ends_session (fuel : nat) (path folder_id v : string)
    (secs : Z) (e : exn) (st : State) :
  watch_fails (w (clock st)) path = false ->
  present (w (S (clock st)))
    (folder_path (fst (deliver w (fresh path) (started path st)))) = true ->
  os_environ w "PERIODICITY" = Some v ->
  int_literal v = Some secs ->
  sleep_refusal secs = Some e ->
  exists (st' : State) (d : list Call) (tracked : string),
    monitor_folder w (S fuel) path folder_id st = Done (Returned tt) st'
    /\ sleeps d = []
    /\ trace st'
       = (trace st ++ d
          ++ [entry CRITICAL (error_message tracked e) "red";
              observer_stop; observer_join;
              entry CRITICAL (terminated_message tracked folder_id) "red"])%list
    /\ ((e = ValueError "sleep length must be non-negative" /\ - SLEEP_MAX <= secs < 0)
        \/ (e = OverflowError "timestamp too large to convert to C _PyTime_t"
            /\ (secs < - SLEEP_MAX \/ SLEEP_MAX < secs))).
Proof.
  intros ok there value parsed refused.
  rewrite (monitor_folder_unfold w (S fuel) path folder_id st ok).
  cbn [heartbeat]. unfold heartbeat_turn.
  destruct (deliver_effect w (fresh path) (started path st)) as [d1 (tr1 & ck1 & h1 & _)].
  destruct (deliver w (fresh path) (started path st)) as [ss1 st1].
  cbn [fst snd] in tr1, ck1, there.
  assert (ck0 : clock (started path st) = S (clock st)) by reflexivity.
  unfold exists_. rewrite ck1, ck0, there.
  set (st3 := log_message _ _ _ _).
  destruct (deliver_effect w ss1 st3) as [d4 (tr4 & ck4 & h4 & _)].
  destruct (deliver w ss1 st3) as [ss4 st4]. cbn [fst snd] in tr4, ck4.
  unfold getenv. rewrite value.
  unfold period_of, int_of_str. rewrite parsed.
  set (st5 := tick (record _ st4)).
  destruct (deliver_effect w ss4 st5) as [d6 (tr6 & ck6 & h6 & _)].
  destruct (deliver w ss4 st5) as [ss6 st6]. cbn [fst snd] in tr6, ck6.
  unfold sleep. rewrite refused.
  eexists.
  exists ([observer_schedule path; observer_start] ++ d1
          ++ [os_path_exists (folder_path ss1) true;
              entry INFO (heartbeat_message (folder_path ss1) folder_id) "green"]
          ++ d4 ++ [os_getenv "PERIODICITY" (Some v)] ++ d6)%list,
    (folder_path ss6).
  split; [reflexivity|]. split; [|split].
  - rewrite <- sleeps_session_calls, !session_calls_app.
    rewrite (handler_entries_silent d1 h1), (handler_entries_silent d4 h4),
      (handler_entries_silent d6 h6).
    reflexivity.
  - rewrite (proj1 (cleanup_trace _ _ _)). cbn [log_message record trace].
    rewrite tr6. subst st5. cbn [tick record trace]. rewrite tr4.
    subst st3. cbn [log_message tick record trace]. rewrite tr1.
    unfold started, tick, record. cbn [trace]. flatten. reflexivity.
  - exact (sleep_refusal_cases secs e refused).
Qed.

(** Stopping the observer does not end the loop, whose test is the
    existence of the tracked path alone.  A session whose observer is
    stopped, as after a rename, goes on for as long as the path it now
    tracks is there, provided PERIODICITY holds a number of seconds that
    [time.sleep] accepts: whatever the fuel it is still running, three
    calls per turn later, without another call of [stop].  (That a
    stopped observer hands over no more events is the model of watchdog's
    delivery, see [dispatch_all].) *)
Theorem stopped_observer_keeps_beating (fuel : nat) (folder_id : string) (secs : Z) :
  forall (ss : Session) (st : State),
    observer_stopped ss = true ->
    (forall t, (clock st <= t)%nat -> present (w t) (folder_path ss) = true) ->
    period_of (os_environ w "PERIODICITY") = Returned secs ->
    sleep_refusal secs = None ->
    exists st' : State,
      heartbeat w fuel folder_id ss st = Running (ss, st')
      /\ clock st' = (clock st + 3 * fuel)%nat
      /\ stops (trace st') = stops (trace st).
Proof.
  induction fuel as [|fuel IH]; intros ss st stopped stays period accepted.
  - exists st. cbn [heartbeat]. repeat split. lia.
  - assert (idle : forall s, deliver w ss s = (ss, s)).
    { intros s. unfold deliver.
      destruct (delivered (w (clock s))); cbn [dispatch_all];
        [reflexivity | now rewrite stopped]. }
    cbn [heartbeat]. unfold heartbeat_turn. rewrite idle.
    unfold exists_. rewrite (stays (clock st)) by lia.
    rewrite idle. unfold getenv.
    rewrite period, idle.
    unfold sleep. rewrite accepted.
    match goal with
    | |- context [heartbeat w fuel folder_id ss ?s] =>
        destruct (IH ss s stopped) as [st' (run & ck & same)]
    end.
    + intros t Ht. apply stays. cbn in Ht. lia.
    + exact period.
    + exact accepted.
    + exists st'. split; [exact run|]. split.
      * rewrite ck. cbn. lia.
      * rewrite same. cbn [log_message tick record trace].
        rewrite !stops_app. cbn [stops filter is_stop length]. lia.
Qed.

(** When the observer cannot watch the path, [monitor_folder] raises
    before it reaches its [try]: no heartbeat, no stop, no join, no
    termination message. *)
Lemma unwatchable_path_raises (fuel : nat) (path folder_id : string) (st : State) :
  watch_fails (w (clock st)) path = true ->
  monitor_folder w fuel path folder_id st
  = Done (Raised OSError)
      {| clock := S (clock st);
         trace := (trace st ++ [observer_schedule path; observer_start])%list |}.
Proof.
  intros failed. unfold monitor_folder. cbn [record clock]. rewrite failed.
  unfold tick, record. cbn [clock trace]. now rewrite <- app_assoc.
Qed.

End MoreSessions.

Lemma stop_called_once_or_twice_witness :
  exists (st' : State) (d : list Call),
    monitor_folder (L := Scenario.libs) Scenario.late 3 "/srv/w" "1700000000"
      Scenario.st0 = Done (Returned tt) st'
    /\ trace st' = (trace Scenario.st0 ++ d)%list
    /\ stops d = 1%nat.
Proof.
  eapply (stop_called_once_or_twice (L := Scenario.libs) Scenario.late 3 "/srv/w"
            "1700000000" Scenario.st0 (Returned tt) (fresh "/srv/w")).
  - reflexivity.
  - vm_compute. reflexivity.
Defined.

Lemma unset_period_sleeps_five_witness :
  exists d : list Call,
    trace (reached (monitor_folder (L := Scenario.libs) Scenario.quiet 4 "/srv/w"
                      "1700000000" Scenario.st0))
    = (trace Scenario.st0 ++ d)%list
    /\ Forall (fun secs => secs = 5) (sleeps d).
Proof.
  apply (unset_period_sleeps_five (L := Scenario.libs) Scenario.quiet 4 "/srv/w"
           "1700000000" Scenario.st0).
  reflexivity.
Defined.

Lemma deleted_folder_ends_session_witness :
  exists (st' : State) (d1 : list Call) (tracked : string),
    monitor_folder (L := Scenario.libs) Scenario.brief (2 + 1) "/srv/w" "1700000000"
      Scenario.st0 = Done (Returned tt) st'
    /\ tracked = "/srv/w"
    /\ Forall (handler_entry (L := Scenario.libs)) d1
    /\ trace st'
       = (trace (snd (reached (heartbeat (L := Scenario.libs) Scenario.brief 2
                                "1700000000" (fresh "/srv/w")
                                (started "/srv/w" Scenario.st0))))
          ++ d1
          ++ [os_path_exists tracked false; observer_stop; observer_join;
              entry (L := Scenario.libs) CRITICAL
                (terminated_message tracked "1700000000") "red"])%list.
Proof.
  apply (deleted_folder_ends_session (L := Scenario.libs) Scenario.brief 2 0 "/srv/w"
           "1700000000" Scenario.st0 (fresh "/srv/w")
           (snd (reached (heartbeat (L := Scenario.libs) Scenario.brief 2 "1700000000"
                            (fresh "/srv/w") (started "/srv/w" Scenario.st0))))).
  - reflexivity.
  - vm_compute. reflexivity.
  - reflexivity.
Defined.

Lemma refused_period_ends_session_witness :
  (exists (st' : State) (d : list Call) (tracked : string),
      monitor_folder (L := Scenario.libs) Scenario.negative 6 "/srv/w" "1700000000"
        Scenario.st0 = Done (Returned tt) st'
      /\ sleeps d = []
      /\ trace st'
         = (trace Scenario.st0 ++ d
            ++ [entry (L := Scenario.libs) CRITICAL
                  (error_message tracked (ValueError "sleep length must be non-negative"))
                  "red";
                observer_stop; observer_join;
                entry (L := Scenario.libs) CRITICAL
                  (terminated_message tracked "1700000000") "red"])%list)
  /\ (exists (st' : State) (d : list Call) (tracked : string),
         monitor_folder (L := Scenario.libs) Scenario.endless 6 "/srv/w" "1700000000"
           Scenario.st0 = Done (Returned tt) st'
         /\ sleeps d = []
         /\ trace st'
            = (trace Scenario.st0 ++ d
               ++ [entry (L := Scenario.libs) CRITICAL
                     (error_message tracked
                        (OverflowError "timestamp too large to convert to C _PyTime_t"))
                     "red";
                   observer_stop; observer_join;
                   entry (L := Scenario.libs) CRITICAL
                     (terminated_message tracked "1700000000") "red"])%list).
Proof.
  split.
  - destruct (refused_period_ends_session (L := Scenario.libs) Scenario.negative 5
                "/srv/w" "1700000000" "-3" (-3)
                (ValueError "sleep length must be non-negative") Scenario.st0
                eq_refl eq_refl eq_refl eq_refl eq_refl)
      as [st' [d [tracked (run & quiet & tr & _)]]].
    exists st', d, tracked. split; [exact run|]. split; [exact quiet | exact tr].
  - destruct (refused_period_ends_session (L := Scenario.libs) Scenario.endless 5
                "/srv/w" "1700000000" "10000000000" 10000000000
                (OverflowError "timestamp too large to convert to C _PyTime_t")
                Scenario.st0 eq_refl eq_refl eq_refl eq_refl eq_refl)
      as [st' [d [tracked (run & quiet & tr & _)]]].
    exists st', d, tracked. split; [exact run|]. split; [exact quiet | exact tr].
Defined.

Lemma stopped_observer_keeps_beating_witness :
  exists st' : State,
    heartbeat (L := Scenario.libs) Scenario.busy 4 "1700000000" Scenario.moved_on
      Scenario.st0 = Running (Scenario.moved_on, st')
    /\ clock st' = (clock Scenario.st0 + 3 * 4)%nat
    /\ stops (trace st') = stops (trace Scenario.st0).
Proof.
  apply (stopped_observer_keeps_beating (L := Scenario.libs) Scenario.busy 4 "1700000000"
           5 Scenario.moved_on Scenario.st0).
  - reflexivity.
  - intros t _. reflexivity.
  - reflexivity.
  - reflexivity.
Defined.

(** ** More on the supervisor loop *)

Section MoreSupervision.

Context {L : Libs}.
Variable w : World.

Lemma main_loop_extends (fuel : nat) (path : string) (turns : nat) :
  forall st : State,
  exists d : list Call,
    trace (reached (main_loop w turns (S fuel) path st)) = (trace st ++ d)%list.
Proof.
  induction turns as [|turns IH]; intros st; cbn [main_loop].
  - exists []. now rewrite app_nil_r.
  - destruct (main_iteration_begins w path fuel st) as [rest tr].
    destruct (main_iteration w (S fuel) path st) as [s | [u|e] s];
      cbn [reached] in tr; try (eexists; exact tr).
    destruct (IH s) as [d trd]. eexists. rewrite trd, tr.
    rewrite <- app_assoc. reflexivity.
Qed.

Lemma main_loop_begins (fuel turns : nat) (path : string) (st : State) :
  exists rest : list Call,
    trace (reached (main_loop w (S turns) (S fuel) path st))
    = (trace st ++ entry INFO (waiting_message path) "green"
         :: os_path_exists path (present (w (clock st)) path) :: rest)%list.
Proof.
  cbn [main_loop].
  destruct (main_iteration_begins w path fuel st) as [rest tr].
  destruct (main_iteration w (S fuel) path st) as [s | [u|e] s];
    cbn [reached] in tr; try (exists rest; exact tr).
  destruct (main_loop_extends fuel path turns s) as [d trd].
  eexists. rewrite trd, tr. rewrite <- app_assoc. cbn [app]. reflexivity.
Qed.

(** [main] begins by reading MONITORED_FOLDER and goes on to wait for the
    folder the variable names, be it the empty string; only an unset
    variable makes it wait for ./watched_folder. *)
Theorem main_waits_for_configured_folder (turns fuel : nat) (st : State) :
  exists rest : list Call,
    trace (reached (main w (S turns) (S fuel) st))
    = (trace st
       ++ os_getenv "MONITORED_FOLDER" (os_environ w "MONITORED_FOLDER")
       :: entry INFO
            (waiting_message
               match os_environ w "MONITORED_FOLDER" with
               | Some p => p
               | None => "./watched_folder"
               end)
            "green"
       :: os_path_exists
            match os_environ w "MONITORED_FOLDER" with
            | Some p => p
            | None => "./watched_folder"
            end
            (present (w (S (clock st)))
               match os_environ w "MONITORED_FOLDER" with
               | Some p => p
               | None => "./watched_folder"
               end)
       :: rest)%list.
Proof.
  unfold main, getenv.
  set (path := match os_environ w "MONITORED_FOLDER" with
               | Some p => p
               | None => "./watched_folder"
               end).
  destruct (main_loop_begins fuel turns path
              (tick (record (os_getenv "MONITORED_FOLDER"
                               (os_environ w "MONITORED_FOLDER")) st)))
    as [rest tr].
  exists rest. rewrite tr. cbn [tick record trace clock].
  rewrite <- app_assoc. reflexivity.
Qed.

(** A stat that fails with anything but "not found" is caught nowhere:
    when the wait has returned and [get_folder_id] meets such a failure,
    nothing is logged and [main]'s loop ends with the [OSError]. *)
Theorem denied_stat_ends_main (turns fuel : nat) (path : string) (st st_w : State) :
  wait_for_folder w fuel path st = Done (Returned tt) st_w ->
  stat (w (clock st_w)) path = stat_denied ->
  main_loop w (S turns) fuel path st
  = Done (Raised OSError)
      {| clock := S (clock st_w); trace := (trace st_w ++ [os_stat path])%list |}.
Proof.
  intros waited denied. cbn [main_loop]. unfold main_iteration.
  rewrite waited. unfold get_folder_id, do_stat. rewrite denied. reflexivity.
Qed.

(** When the folder is there but the observer cannot watch it, the
    session's thread dies of the [OSError] before any heartbeat: the turn
    logs the creation, schedules and starts the observer and is over,
    without stop, join or termination message, and [main] goes on. *)
Theorem unwatchable_path_skips_session (turns fuel : nat) (path : string)
    (st st_w : State) (t : Q) :
  wait_for_folder w fuel path st = Done (Returned tt) st_w ->
  stat (w (clock st_w)) path = stat_ok t ->
  watch_fails (w (S (clock st_w))) path = true ->
  exists st' : State,
    main_iteration w fuel path st = Done (Returned tt) st'
    /\ trace st'
       = (trace st_w
          ++ [os_stat path;
              entry INFO
                (created_message path (str_of_int (int_of_float t))
                   (get_ident (w (S (clock st_w)))))
                "green";
              observer_schedule path; observer_start])%list
    /\ main_loop w (S turns) fuel path st = main_loop w turns fuel path st'.
Proof.
  intros waited there failed.
  assert (turn : exists st' : State,
             main_iteration w fuel path st = Done (Returned tt) st'
             /\ trace st'
                = (trace st_w
                   ++ [os_stat path;
                       entry INFO
                         (created_message path (str_of_int (int_of_float t))
                            (get_ident (w (S (clock st_w)))))
                         "green";
                       observer_schedule path; observer_start])%list).
  { unfold main_iteration. rewrite waited. unfold get_folder_id, do_stat.
    rewrite there, str_of_int_truthy.
    rewrite unwatchable_path_raises by exact failed.
    eexists. split; [reflexivity|].
    cbn [log_message tick record trace clock]. flatten. reflexivity. }
  destruct turn as [st' [run tr]].
  exists st'. split; [exact run|]. split; [exact tr|].
  cbn [main_loop]. now rewrite run.
Qed.

End MoreSupervision.

Lemma denied_stat_ends_main_witness :
  main_loop (L := Scenario.libs) Scenario.forbidden 3 2 "/srv/w" Scenario.st0
  = Done (Raised OSError)
      {| clock := 2;
         trace := [entry (L := Scenario.libs) INFO (waiting_message "/srv/w") "green";
                   os_path_exists "/srv/w" true; os_stat "/srv/w"] |}.
Proof.
  apply (denied_stat_ends_main (L := Scenario.libs) Scenario.forbidden 2 2 "/srv/w"
           Scenario.st0
           {| clock := 1;
              trace := [entry (L := Scenario.libs) INFO (waiting_message "/srv/w") "green";
                        os_path_exists "/srv/w" true] |}); reflexivity.
Defined.

Lemma unwatchable_path_skips_session_witness :
  exists st' : State,
    main_iteration (L := Scenario.libs) Scenario.unwatchable 2 "/srv/w" Scenario.st0
    = Done (Returned tt) st'
    /\ trace st'
       = ([entry (L := Scenario.libs) INFO (waiting_message "/srv/w") "green";
           os_path_exists "/srv/w" true]
          ++ [os_stat "/srv/w";
              entry (L := Scenario.libs) INFO
                (created_message "/srv/w" (str_of_int (int_of_float (17000000005 # 10)))
                   140)
                "green";
              observer_schedule "/srv/w"; observer_start])%list
    /\ main_loop (L := Scenario.libs) Scenario.unwatchable 1 2 "/srv/w" Scenario.st0
       = main_loop (L := Scenario.libs) Scenario.unwatchable 0 2 "/srv/w" st'.
Proof.
  apply (unwatchable_path_skips_session (L := Scenario.libs) Scenario.unwatchable 0 2
           "/srv/w" Scenario.st0
           {| clock := 1;
              trace := [entry (L := Scenario.libs) INFO (waiting_message "/srv/w") "green";
                        os_path_exists "/srv/w" true] |}
           (17000000005 # 10)); reflexivity.
Defined.
